(** * ryu.services.protocols.bgp.application

    A shallow embedding of [ryu/services/protocols/bgp/application.py]: the
    validators, the configuration loader, and the [RyuBGPSpeaker]
    application with its start sequence and its bulk loaders of neighbors,
    VRFs and routes.

    Python values are a small universe of literals, lists and dictionaries
    with string keys.  Exceptions are values carrying their class chain.
    The application runs in a state-and-exception monad whose state holds
    the two attributes of [self] and the trace of everything the code does
    to the outside: log records, calls on the speaker, task launches.

    What the file imports and does not define is taken as an interface:
    the constants of [rtconf.common] and [net_ctrl], the two address
    predicates of [utils.validation], the file system and module loader,
    and the [BGPSpeaker] engine. *)

From stdpp Require Import base option list gmap strings fin_maps.
From Stdlib Require Import ZArith.

#[local] Set Warnings "-register-all,-clear-no-such-hyp".

(** ** Python values *)

Inductive pyval : Type :=
  | VNone
  | VBool (b : bool)
  | VInt (n : Z)
  | VStr (s : string)
  | VTuple (xs : list pyval)
  | VList (xs : list pyval)
  | VDict (d : gmap string pyval).

Definition py_type_name (v : pyval) : string :=
  match v with
  | VNone => "NoneType"
  | VBool _ => "bool"
  | VInt _ => "int"
  | VStr _ => "str"
  | VTuple _ => "tuple"
  | VList _ => "list"
  | VDict _ => "dict"
  end.

(** ** Exceptions

    An exception carries the names of its class and of all the classes
    above it, most specific first, and its message: the [desc] argument
    for the exceptions raised in this file, [str(e)] for the others. *)

Record exn : Type := Exn { exn_mro : list string; exn_msg : string }.

Definition isinstance (e : exn) (cls : string) : bool :=
  bool_decide (cls ∈ exn_mro e).

Definition TypeError (msg : string) : exn :=
  Exn ["TypeError"; "Exception"; "BaseException"] msg.

Definition AttributeError (msg : string) : exn :=
  Exn ["AttributeError"; "Exception"; "BaseException"] msg.

(** [class ApplicationException(BGPSException)].  [BGPSException] is
    declared in [bgp/base.py]; the classes above it are an argument. *)
Class BgpBase : Type := { BGPSException_bases : list string }.

Definition ApplicationException `{BgpBase} (desc : string) : exn :=
  Exn ("ApplicationException" :: "BGPSException" :: BGPSException_bases) desc.

(** ** Operations on values *)

(** [settings.get(key, default)] *)
Definition py_get (settings : pyval) (key : string) (dflt : pyval) : exn + pyval :=
  match settings with
  | VDict d => inr (default dflt (d !! key))
  | v => inl (AttributeError
                ("'" +:+ py_type_name v +:+ "' object has no attribute 'get'"))
  end.

Fixpoint chars (s : string) : list pyval :=
  match s with
  | EmptyString => []
  | String c s' => VStr (String c EmptyString) :: chars s'
  end.

(** The items a [for] loop draws from a value.  A dictionary yields its
    keys, here in the order of [map_to_list]. *)
Definition py_iter (v : pyval) : exn + list pyval :=
  match v with
  | VList xs | VTuple xs => inr xs
  | VStr s => inr (chars s)
  | VDict d => inr ((λ kv, VStr kv.1) <$> map_to_list d)
  | v => inl (TypeError ("'" +:+ py_type_name v +:+ "' object is not iterable"))
  end.

Definition is_str (k : string) (v : pyval) : bool :=
  match v with
  | VStr s => bool_decide (s = k)
  | _ => false
  end.

(** [key in v] for a string [key] *)
Definition py_contains (key : string) (v : pyval) : exn + bool :=
  match v with
  | VDict d => inr (bool_decide (is_Some (d !! key)))
  | VStr s => inr (bool_decide (is_Some (String.index 0 key s)))
  | VList xs | VTuple xs => inr (existsb (is_str key) xs)
  | v => inl (TypeError
                ("argument of type '" +:+ py_type_name v +:+ "' is not iterable"))
  end.

(** [**v] in a call *)
Definition py_kwargs (v : pyval) : exn + gmap string pyval :=
  match v with
  | VDict d => inr d
  | v => inl (TypeError
                ("argument after ** must be a mapping, not " +:+ py_type_name v))
  end.

(** Truth value and ['%s'] rendering of a string option such as
    [CONF.config_file]. *)
Definition py_bool (o : option string) : bool :=
  match o with
  | None | Some EmptyString => false
  | Some _ => true
  end.

Definition py_str (o : option string) : string :=
  match o with
  | None => "None"
  | Some s => s
  end.

Definition py_of (o : option string) : pyval :=
  match o with
  | None => VNone
  | Some s => VStr s
  end.

(** ** The imported interfaces *)

(** [rtconf.common] and [net_ctrl]: the names of the settings and their
    defaults. *)
Class RtConf : Type := {
  LOCAL_AS : string;
  ROUTER_ID : string;
  BGP_SERVER_PORT : string;
  REFRESH_STALEPATH_TIME : string;
  REFRESH_MAX_EOR_TIME : string;
  LABEL_RANGE : string;
  DEFAULT_BGP_SERVER_PORT : pyval;
  DEFAULT_REFRESH_STALEPATH_TIME : pyval;
  DEFAULT_REFRESH_MAX_EOR_TIME : pyval;
  DEFAULT_LABEL_RANGE : pyval;
  NC_RPC_BIND_IP : string;
  NC_RPC_BIND_PORT : string
}.

(** [utils.validation] *)
Class Validation : Type := {
  is_valid_ipv4 : string → bool;
  is_valid_ipv6 : string → bool
}.

(** Keyword arguments, and a loaded settings module: its attributes by
    name. *)
Abbreviation kwargs := (gmap string pyval).
Abbreviation pymodule := (gmap string pyval).

(** [os.path.isfile], [ryu.utils.load_source], and the import of
    [bgp.operator.ssh], which fails where paramiko is not installed. *)
Class Host : Type := {
  isfile : string → bool;
  load_source : string → string → exn + pymodule;
  import_ssh : option exn
}.

(** The methods of the speaker called from this file. *)
Inductive engine_op : Type := NeighborAdd | VrfAdd | PrefixAdd | EvpnPrefixAdd.

Definition method_name (op : engine_op) : string :=
  match op with
  | NeighborAdd => "neighbor_add"
  | VrfAdd => "vrf_add"
  | PrefixAdd => "prefix_add"
  | EvpnPrefixAdd => "evpn_prefix_add"
  end.

(** [bgpspeaker.BGPSpeaker]: the constructor and the four methods, each
    taking keyword arguments and either returning or raising; a method
    may change the speaker either way. *)
Class Engine : Type := {
  engine : Type;
  BGPSpeaker : gmap string pyval → exn + engine;
  neighbor_add : gmap string pyval → engine → option exn * engine;
  vrf_add : gmap string pyval → engine → option exn * engine;
  prefix_add : gmap string pyval → engine → option exn * engine;
  evpn_prefix_add : gmap string pyval → engine → option exn * engine
}.

Definition method `{Engine} (op : engine_op)
  : gmap string pyval → engine → option exn * engine :=
  match op with
  | NeighborAdd => neighbor_add
  | VrfAdd => vrf_add
  | PrefixAdd => prefix_add
  | EvpnPrefixAdd => evpn_prefix_add
  end.

(** [cfg.CONF['bgp-app']] *)
Record conf : Type := Conf {
  config_file : option string;
  rpc_host : string;
  rpc_port : Z
}.

(** ** What the application does to the outside *)

Inductive target : Type := SSH_CLI_CONTROLLER_start | NET_CONTROLLER_start.

(** The handle [hub.spawn] returns. *)
Record task : Type := Task { task_target : target; task_kwargs : gmap string pyval }.

Inductive event : Type :=
  | LogDebug (fmt : string) (args : list pyval)
  | LogException (e : exn)
  | SuperStart
  | LoadSource (name path : string) (outcome : option exn)
  | Construct (kw : gmap string pyval) (outcome : option exn)
  | Call (op : engine_op) (kw : gmap string pyval) (outcome : option exn)
  | ImportSsh (outcome : option exn)
  | Spawn (t : target) (kw : gmap string pyval).

(** ** The application *)

Module RyuBGPSpeaker.
Section App.
Context `{BgpBase, RtConf, Validation, Host, Engine}.

(** [self.config_file], [self.speaker], and the trace so far. *)
Record state : Type := State {
  self_config_file : option string;
  self_speaker : option engine;
  trace : list event
}.

(** Computations: they return or raise, and leave a state either way. *)
Definition M (A : Type) : Type := state → (exn + A) * state.

#[export] Instance M_ret : MRet M := λ A x st, (inr x, st).

#[export] Instance M_bind : MBind M := λ A B f m st,
  match m st with
  | (inr x, st') => f x st'
  | (inl e, st') => (inl e, st')
  end.

Definition raise {A} (e : exn) : M A := λ st, (inl e, st).

Definition lift {A} (r : exn + A) : M A := λ st, (r, st).

Definition gets {A} (f : state → A) : M A := λ st, (inr (f st), st).

Definition emit (ev : event) : M unit := λ st,
  (inr tt, State (self_config_file st) (self_speaker st) (trace st ++ [ev])).

(** [try: body / except cls as e: handler e] *)
Definition try_except {A} (body : M A) (cls : string) (handler : exn → M A) : M A :=
  λ st,
    match body st with
    | (inl e, st') => if isinstance e cls then handler e st' else (inl e, st')
    | r => r
    end.

(** [for x in items: body x] *)
Fixpoint for_each (items : list pyval) (body : pyval → M unit) : M unit :=
  match items with
  | [] => mret tt
  | x :: rest => body x;; for_each rest body
  end.

Definition for_in (iterable : pyval) (body : pyval → M unit) : M unit :=
  items ← lift (py_iter iterable); for_each items body.

Definition log_debug (fmt : string) (args : list pyval) : M unit :=
  emit (LogDebug fmt args).

Definition log_exception (e : exn) : M unit := emit (LogException e).

(** [hub.spawn] of [t] with keyword arguments [kw] *)
Definition spawn (t : target) (kw : kwargs) : M task :=
  emit (Spawn t kw);; mret (Task t kw).

(** [self.speaker.<op>]: the bound method, if there is a speaker. *)
Definition speaker_attr (op : engine_op) : M engine_op := λ st,
  match self_speaker st with
  | Some _ => (inr op, st)
  | None =>
      (inl (AttributeError ("'NoneType' object has no attribute '"
                              +:+ method_name op +:+ "'")), st)
  end.

(** The call of a bound method [op] of the speaker with keyword
    arguments [kw]. *)
Definition invoke (op : engine_op) (kw : kwargs) : M unit := λ st,
  match self_speaker st with
  | Some s =>
      let '(r, s') := method op kw s in
      let st' := State (self_config_file st) (Some s') (trace st ++ [Call op kw r]) in
      match r with
      | None => (inr tt, st')
      | Some e => (inl e, st')
      end
  | None =>
      (inl (AttributeError ("'NoneType' object has no attribute '"
                              +:+ method_name op +:+ "'")), st)
  end.

Definition apply_method (op : engine_op) (v : pyval) : M unit :=
  kw ← lift (py_kwargs v); invoke op kw.

(** [self.speaker = BGPSpeaker] called with keyword arguments [kw] *)
Definition construct (kw : kwargs) : M unit := λ st,
  match BGPSpeaker kw with
  | inr s =>
      (inr tt, State (self_config_file st) (Some s) (trace st ++ [Construct kw None]))
  | inl e =>
      (inl e, State (self_config_file st) (self_speaker st)
                (trace st ++ [Construct kw (Some e)]))
  end.

(** *** Module-level functions *)

Definition validate_rpc_host (ip : string) : exn + string :=
  if negb (is_valid_ipv4 ip) && negb (is_valid_ipv6 ip)
  then inl (ApplicationException ("Invalid RPC ip address: " +:+ ip))
  else inr ip.

Definition call_load_source (name path : string) : M pymodule := λ st,
  let r := load_source name path in
  let o := match r with inl e => Some e | inr _ => None end in
  (r, State (self_config_file st) (self_speaker st)
        (trace st ++ [LoadSource name path o])).

(** On [None] the test [not config_file] holds and [os.path.isfile] is
    not reached. *)
Definition load_config (config_file : option string) : M pymodule :=
  match config_file with
  | Some path =>
      if negb (py_bool config_file) || negb (isfile path)
      then raise (ApplicationException
                    ("Invalid configuration file: " +:+ py_str config_file))
      else try_except
             (call_load_source "bgpspeaker.application.settings" path)
             "Exception"
             (λ e, raise (ApplicationException (exn_msg e)))
  | None =>
      raise (ApplicationException
               ("Invalid configuration file: " +:+ py_str config_file))
  end.

(** *** class RyuBGPSpeaker *)

Definition __init__ (CONF : conf) : state :=
  State (config_file CONF) None [].

(** [RyuApp.start], the method of the base class. *)
Definition super_start : M unit := emit SuperStart.

(** The guarded call shared by the three loaders:
    [try: call / except RuntimeConfigError as e: LOG.exception(e)]. *)
Definition guarded (call : M unit) : M unit :=
  try_except call "RuntimeConfigError" (λ e, log_exception e).

Definition _add_neighbors (settings : pyval) : M unit :=
  for_in settings (λ neighbor_settings,
    log_debug "Adding neighbor settings: %s" [neighbor_settings];;
    guarded (m ← speaker_attr NeighborAdd; apply_method m neighbor_settings)).

Definition _add_vrfs (settings : pyval) : M unit :=
  for_in settings (λ vrf_settings,
    log_debug "Adding VRF settings: %s" [vrf_settings];;
    guarded (m ← speaker_attr VrfAdd; apply_method m vrf_settings)).

Definition _add_routes (settings : pyval) : M unit :=
  for_in settings (λ route_settings,
    has_prefix ← lift (py_contains "prefix" route_settings);
    selected ←
      (if has_prefix : bool then m ← speaker_attr PrefixAdd; mret (Some m)
       else
         has_route_type ← lift (py_contains "route_type" route_settings);
         if has_route_type : bool then m ← speaker_attr EvpnPrefixAdd; mret (Some m)
         else mret None);
    match selected with
    | None =>
        (* continue *)
        log_debug "Skip invalid route settings: %s" [route_settings]
    | Some prefix_add =>
        log_debug "Adding route settings: %s" [route_settings];;
        guarded (apply_method prefix_add route_settings)
    end).

(** The handler of the required settings:
    [except KeyError as e: raise ApplicationException(...)]. *)
Definition required_missing {A} (e : exn) : M A :=
  raise (ApplicationException
           ("Required BGP configuration missing: " +:+ exn_msg e)).

Definition _start_speaker (settings : pyval) : M unit :=
  let bgp_settings : kwargs := ∅ in
  (* Get required settings. *)
  bgp_settings ←
    try_except
      (as_number ← lift (py_get settings LOCAL_AS VNone);
       let bgp_settings := <["as_number" := as_number]> bgp_settings in
       router_id ← lift (py_get settings ROUTER_ID VNone);
       mret (<["router_id" := router_id]> bgp_settings))
      "KeyError"
      required_missing;
  (* Get optional settings. *)
  v ← lift (py_get settings BGP_SERVER_PORT DEFAULT_BGP_SERVER_PORT);
  let bgp_settings := <[BGP_SERVER_PORT := v]> bgp_settings in
  v ← lift (py_get settings REFRESH_STALEPATH_TIME DEFAULT_REFRESH_STALEPATH_TIME);
  let bgp_settings := <[REFRESH_STALEPATH_TIME := v]> bgp_settings in
  v ← lift (py_get settings REFRESH_MAX_EOR_TIME DEFAULT_REFRESH_MAX_EOR_TIME);
  let bgp_settings := <[REFRESH_MAX_EOR_TIME := v]> bgp_settings in
  v ← lift (py_get settings LABEL_RANGE DEFAULT_LABEL_RANGE);
  let bgp_settings := <[LABEL_RANGE := v]> bgp_settings in
  (* Create BGPSpeaker instance. *)
  log_debug "Starting BGPSpeaker..." [];;
  construct bgp_settings;;
  (* Add neighbors. *)
  log_debug "Adding neighbors..." [];;
  neighbors ← lift (py_get settings "neighbors" (VList []));
  _add_neighbors neighbors;;
  (* Add VRFs. *)
  log_debug "Adding VRFs..." [];;
  vrfs ← lift (py_get settings "vrfs" (VList []));
  _add_vrfs vrfs;;
  (* Add Networks *)
  log_debug "Adding routes..." [];;
  routes ← lift (py_get settings "routes" (VList []));
  _add_routes routes.

Definition start_ssh (ssh_settings : pyval) : M unit :=
  (λ st, (match import_ssh with Some e => inl e | None => inr tt end,
          State (self_config_file st) (self_speaker st)
            (trace st ++ [ImportSsh import_ssh])));;
  kw ← lift (py_kwargs ssh_settings);
  spawn SSH_CLI_CONTROLLER_start kw;;
  mret tt.

Definition start (CONF : conf) : M task :=
  super_start;;
  self_config_file ← gets self_config_file;
  (if py_bool self_config_file then
     log_debug "Loading config file %s..." [py_of self_config_file];;
     settings ← load_config self_config_file;
     (* Configure logging settings, if available. *)
     (if bool_decide (is_Some (settings !! "LOGGING")) then
        log_debug "Loading LOGGING settings... (NOT implemented yet)" []
      else mret tt);;
     (* Configure BGP settings, if available. *)
     (match settings !! "BGP" with
      | Some bgp => log_debug "Loading BGP settings..." [];; _start_speaker bgp
      | None => mret tt
      end);;
     (* Configure SSH settings, if available. *)
     (match settings !! "SSH" with
      | Some ssh => log_debug "Loading SSH settings..." [];; start_ssh ssh
      | None => mret tt
      end)
   else mret tt);;
  (* Start RPC server with the given RPC settings. *)
  let port := VInt (rpc_port CONF) in
  ip ← lift (validate_rpc_host (rpc_host CONF));
  let rpc_settings : kwargs :=
    <[NC_RPC_BIND_IP := VStr ip]> (<[NC_RPC_BIND_PORT := port]> ∅) in
  spawn NET_CONTROLLER_start rpc_settings.
End App.
End RyuBGPSpeaker.

Import RyuBGPSpeaker.

(** * Vocabulary of the properties *)

(** The class an exception was raised as. *)
Definition exn_class (e : exn) : option string := head (exn_mro e).

(** The exception a result carries, if it is one. *)
Definition outcome {A} (r : exn + A) : option exn :=
  match r with
  | inl e => Some e
  | inr _ => None
  end.

(** The name [load_config] gives the settings module. *)
Definition settings_module : string := "bgpspeaker.application.settings".

(** The four steps of the start sequence, as they show in the trace. *)
Inductive step : Type := Load | Bootstrap | Shell | Control.

Definition step_of (ev : event) : option step :=
  match ev with
  | LoadSource _ _ _ => Some Load
  | Construct _ _ => Some Bootstrap
  | Spawn SSH_CLI_CONTROLLER_start _ => Some Shell
  | Spawn NET_CONTROLLER_start _ => Some Control
  | _ => None
  end.

Definition steps (tr : list event) : list step := omap step_of tr.

(** Everything in a trace but the debug records. *)
Definition action_of (ev : event) : option event :=
  match ev with
  | LogDebug _ _ => None
  | _ => Some ev
  end.

Definition actions (tr : list event) : list event := omap action_of tr.

(** An outcome the loaders tolerate: a normal return, or an exception
    that is a [RuntimeConfigError]. *)
Definition tolerated (o : option exn) : bool :=
  match o with
  | None => true
  | Some e => isinstance e "RuntimeConfigError"
  end.

(** What one call on the speaker leaves in the trace: the call with its
    outcome, followed by the logged exception when it was tolerated. *)
Definition attempt_events (a : engine_op * kwargs) (o : option exn) : list event :=
  Call a.1 a.2 o ::
    match o with
    | Some e => if isinstance e "RuntimeConfigError" then [LogException e] else []
    | None => []
    end.

(** A loader went through [attempts] in order: it made the calls of an
    initial segment, one after the other, each with its outcome; every
    call before the last was tolerated; on a normal return the segment is
    the whole list, and on an exception the last call raised it and it
    is not a [RuntimeConfigError]. *)
Definition applied_in_order (attempts : list (engine_op * kwargs))
    (r : exn + unit) (new : list event) : Prop :=
  ∃ outs : list (option exn),
    length outs ≤ length attempts
    ∧ actions new = concat (zip_with attempt_events attempts outs)
    ∧ match r with
      | inr _ => length outs = length attempts ∧ Forall tolerated outs
      | inl e =>
          ∃ outs', outs = outs' ++ [Some e]
                   ∧ Forall tolerated outs'
                   ∧ isinstance e "RuntimeConfigError" = false
      end.

(** The kind of a route entry, in the words of the data model: a prefix
    route if it carries [prefix], else an EVPN route if it carries
    [route_type], else not a route. *)
Definition route_kind (d : kwargs) : option engine_op :=
  if bool_decide (is_Some (d !! "prefix")) then Some PrefixAdd
  else if bool_decide (is_Some (d !! "route_type")) then Some EvpnPrefixAdd
  else None.

Definition route_attempt (d : kwargs) : option (engine_op * kwargs) :=
  (λ op, (op, d)) <$> route_kind d.

Section Vocabulary.
Context `{BgpBase, RtConf, Validation, Host, Engine}.

(** A computation is quiet when it only appends to the trace and
    appends none of the four steps. *)
Definition quiet {A} (m : M A) : Prop :=
  ∀ st, ∃ new, trace (m st).2 = trace st ++ new ∧ steps new = [].

(** The keyword arguments [_start_speaker] collects from a section. *)
Definition bgp_settings_of (d : kwargs) : kwargs :=
  <[LABEL_RANGE := default DEFAULT_LABEL_RANGE (d !! LABEL_RANGE)]>
    (<[REFRESH_MAX_EOR_TIME :=
         default DEFAULT_REFRESH_MAX_EOR_TIME (d !! REFRESH_MAX_EOR_TIME)]>
       (<[REFRESH_STALEPATH_TIME :=
            default DEFAULT_REFRESH_STALEPATH_TIME (d !! REFRESH_STALEPATH_TIME)]>
          (<[BGP_SERVER_PORT :=
               default DEFAULT_BGP_SERVER_PORT (d !! BGP_SERVER_PORT)]>
             (<["router_id" := default VNone (d !! ROUTER_ID)]>
                (<["as_number" := default VNone (d !! LOCAL_AS)]> ∅))))).

(** What [_start_speaker] does once the speaker exists. *)
Definition load_lists (d : kwargs) : M unit :=
  log_debug "Adding neighbors..." [];;
  _add_neighbors (default (VList []) (d !! "neighbors"));;
  log_debug "Adding VRFs..." [];;
  _add_vrfs (default (VList []) (d !! "vrfs"));;
  log_debug "Adding routes..." [];;
  _add_routes (default (VList []) (d !! "routes")).

(** What the body of a loader does on one dictionary, given the call
    it is due to make, if any. *)
Definition one_attempt (body : pyval → M unit)
    (attempt : kwargs → option (engine_op * kwargs)) : Prop :=
  ∀ d st s, self_speaker st = Some s →
    ∃ dbg, actions dbg = [] ∧
      match attempt d with
      | None =>
          body (VDict d) st
          = (inr tt, State (self_config_file st) (Some s) (trace st ++ dbg))
      | Some (op, kw) =>
          body (VDict d) st
          = (match (method op kw s).1 with
             | Some e => if isinstance e "RuntimeConfigError" then inr tt else inl e
             | None => inr tt
             end,
             State (self_config_file st) (Some (method op kw s).2)
               (trace st ++ dbg ++ attempt_events (op, kw) (method op kw s).1))
      end.

(** The settings module a configuration yields, empty when there is
    no configuration file or it does not load. *)
Definition document (config_file : option string) : pymodule :=
  match config_file with
  | Some path =>
      if py_bool config_file && isfile path then
        match load_source settings_module path with
        | inr m => m
        | inl _ => ∅
        end
      else ∅
  | None => ∅
  end.

(** The steps a start is due to take, in order. *)
Definition plan (config_file : option string) : list step :=
  (if py_bool config_file then [Load] else [])
  ++ (if bool_decide (is_Some (document config_file !! "BGP")) then [Bootstrap] else [])
  ++ (if bool_decide (is_Some (document config_file !! "SSH")) then [Shell] else [])
  ++ [Control].
(** A computation takes the steps [todo]: it only appends to the trace,
    the steps it appends are an initial segment of [todo], and they are
    all of [todo] when it returns. *)
Definition takes {A} (m : M A) (todo : list step) : Prop :=
  ∀ st, ∃ new,
    trace (m st).2 = trace st ++ new
    ∧ steps new `prefix_of` todo
    ∧ (outcome (m st).1 = None → steps new = todo).

(** The part of [start] that acts on the loaded settings. *)
Definition configure (settings : pymodule) : M unit :=
  (if bool_decide (is_Some (settings !! "LOGGING")) then
     log_debug "Loading LOGGING settings... (NOT implemented yet)" []
   else mret tt);;
  (match settings !! "BGP" with
   | Some bgp => log_debug "Loading BGP settings..." [];; _start_speaker bgp
   | None => mret tt
   end);;
  (match settings !! "SSH" with
   | Some ssh => log_debug "Loading SSH settings..." [];; start_ssh ssh
   | None => mret tt
   end).

(** The keyword arguments of the control channel. *)
Definition rpc_settings (CONF : conf) : kwargs :=
  <[NC_RPC_BIND_IP := VStr (rpc_host CONF)]>
    (<[NC_RPC_BIND_PORT := VInt (rpc_port CONF)]> ∅).

(** The last part of [start]. *)
Definition launch_control (CONF : conf) : M task :=
  ip ← lift (validate_rpc_host (rpc_host CONF));
  spawn NET_CONTROLLER_start
    (<[NC_RPC_BIND_IP := VStr ip]> (<[NC_RPC_BIND_PORT := VInt (rpc_port CONF)]> ∅)).

(** The state in which [start] calls [_start_speaker], when the file at
    [path] has loaded as [settings]. *)
Definition before_bootstrap (st : state) (path : string) (settings : pymodule) : state :=
  State (self_config_file st) (self_speaker st)
    (trace st
     ++ [SuperStart;
         LogDebug "Loading config file %s..." [VStr path];
         LoadSource settings_module path None]
     ++ (if bool_decide (is_Some (settings !! "LOGGING")) then
           [LogDebug "Loading LOGGING settings... (NOT implemented yet)" []]
         else [])
     ++ [LogDebug "Loading BGP settings..." []]).

(** The configuration is not set, or names a file that loads. *)
Definition loads (config_file : option string) : Prop :=
  py_bool config_file = false
  ∨ ∃ p m, config_file = Some p ∧ isfile p = true
           ∧ load_source settings_module p = inr m.
End Vocabulary.

(** * A sample environment

    Concrete collaborators on which the statements below are exercised:
    setting names as the data model spells them, a few files, and a
    speaker that records the calls it accepts. *)

Module Sample.
Definition RuntimeConfigError (msg : string) : exn :=
  Exn ["RuntimeConfigError"; "BGPSException"; "Exception"; "BaseException"] msg.

Definition SyntaxError (msg : string) : exn :=
  Exn ["SyntaxError"; "Exception"; "BaseException"] msg.

Definition SystemExit (msg : string) : exn :=
  Exn ["SystemExit"; "BaseException"] msg.

Definition base : BgpBase :=
  {| BGPSException_bases := ["Exception"; "BaseException"] |}.

Definition names : RtConf := {|
  LOCAL_AS := "as_number";
  ROUTER_ID := "router_id";
  BGP_SERVER_PORT := "server_port";
  REFRESH_STALEPATH_TIME := "refresh_stalepath_time";
  REFRESH_MAX_EOR_TIME := "refresh_max_eor_time";
  LABEL_RANGE := "label_range";
  DEFAULT_BGP_SERVER_PORT := VInt 179;
  DEFAULT_REFRESH_STALEPATH_TIME := VInt 0;
  DEFAULT_REFRESH_MAX_EOR_TIME := VInt 0;
  DEFAULT_LABEL_RANGE := VTuple [VInt 100; VInt 100000];
  NC_RPC_BIND_IP := "bind_ip";
  NC_RPC_BIND_PORT := "bind_port"
|}.

Definition addresses : Validation := {|
  is_valid_ipv4 ip := bool_decide (ip ∈ ["0.0.0.0"; "192.0.2.1"]);
  is_valid_ipv6 ip := bool_decide (ip ∈ ["::"; "2001:db8::1"])
|}.

Definition valid1 : kwargs := {["address" := VStr "192.0.2.2"]}.
Definition malformed : kwargs := {["address" := VNone]}.
Definition valid2 : kwargs := {["address" := VStr "192.0.2.3"]}.
Definition crashing : kwargs := {["address" := VInt 0]}.

Definition prefix_route : kwargs := {["prefix" := VStr "10.0.0.0/24"]}.
Definition evpn_route : kwargs := {["route_type" := VStr "evpn"]}.
Definition both_route : kwargs :=
  <["prefix" := VStr "10.0.0.0/24"]> {["route_type" := VStr "evpn"]}.

(** A section with both required settings, and one without [as_number]. *)
Definition full_section : kwargs :=
  <["as_number" := VInt 64512]>
    (<["router_id" := VStr "10.0.0.1"]>
       (<["server_port" := VInt 1790]>
          (<["neighbors" := VList [VDict valid1; VDict malformed; VDict valid2]]>
             (<["routes" := VList [VDict prefix_route; VDict evpn_route; VDict ∅]]> ∅)))).

Definition no_as_number : kwargs := {["router_id" := VStr "10.0.0.1"]}.

Definition files : Host := {|
  isfile p :=
    bool_decide (p ∈ ["/etc/ryu/bgp.py"; "/etc/ryu/bare.py"; "/etc/ryu/partial.py";
                      "/etc/ryu/exit.py"; "/etc/ryu/broken.py"]);
  load_source _ p :=
    if bool_decide (p = "/etc/ryu/bgp.py") then inr {["BGP" := VDict full_section]}
    else if bool_decide (p = "/etc/ryu/partial.py") then
      inr {["BGP" := VDict no_as_number]}
    else if bool_decide (p = "/etc/ryu/bare.py") then inr ∅
    else if bool_decide (p = "/etc/ryu/exit.py") then inl (SystemExit "1")
    else inl (SyntaxError "invalid syntax");
  import_ssh := None
|}.

(** A speaker that rejects an entry whose [address] is [None] with a
    [RuntimeConfigError], fails on one whose [address] is a number with
    a [TypeError], and records every other call. *)
Definition respond (op : engine_op) (kw : kwargs) (s : list (engine_op * kwargs))
  : option exn * list (engine_op * kwargs) :=
  match kw !! "address" with
  | Some VNone => (Some (RuntimeConfigError "address is required"), s)
  | Some (VInt _) => (Some (TypeError "address must be a string"), s)
  | _ => (None, s ++ [(op, kw)])
  end.

Definition recorder : Engine := {|
  engine := list (engine_op * kwargs);
  BGPSpeaker kw := inr [];
  neighbor_add := respond NeighborAdd;
  vrf_add := respond VrfAdd;
  prefix_add := respond PrefixAdd;
  evpn_prefix_add := respond EvpnPrefixAdd
|}.

(** A running application whose speaker has recorded nothing yet. *)
Definition fresh : @state recorder := @State recorder None (Some []) [].

(** A speaker whose constructor refuses a missing [as_number] with the
    application's own exception. *)
Definition strict : Engine := {|
  engine := list (engine_op * kwargs);
  BGPSpeaker kw :=
    match kw !! "as_number" with
    | Some VNone | None =>
        inl (ApplicationException (H:=base) "as_number is required")
    | _ => inr []
    end;
  neighbor_add := respond NeighborAdd;
  vrf_add := respond VrfAdd;
  prefix_add := respond PrefixAdd;
  evpn_prefix_add := respond EvpnPrefixAdd
|}.
End Sample.


(** ** Vocabulary of the further properties *)

(** The speaker method an event calls, if it is a call. *)
Definition call_op (ev : event) : option engine_op :=
  match ev with
  | Call op _ _ => Some op
  | _ => None
  end.

(** An event of a loader whose calls are among [ops]: a debug record, a
    logged exception, or a call of one of these methods. *)
Definition loader_event (ops : list engine_op) (ev : event) : Prop :=
  match ev with
  | LogDebug _ _ | LogException _ => True
  | Call op _ _ => op ∈ ops
  | _ => False
  end.

(** An event that neither builds the speaker nor calls it. *)
Definition off_speaker (ev : event) : Prop :=
  match ev with
  | Construct _ _ | Call _ _ _ => False
  | _ => True
  end.

(** An event that launches nothing. *)
Definition no_spawn (ev : event) : Prop :=
  match ev with
  | Spawn _ _ => False
  | _ => True
  end.

Section FurtherVocabulary.
Context `{BgpBase, RtConf, Validation, Host, Engine}.

(** A computation keeps [I] when it leaves a state in [I] in [I],
    whether it returns or raises. *)
Definition preserves (I : state → Prop) {A} (m : M A) : Prop :=
  ∀ st, I st → I (m st).2.

(** The trace is [t0] followed by events that all satisfy [P]. *)
Definition appended (t0 : list event) (P : event → Prop) (st : state) : Prop :=
  ∃ new, trace st = t0 ++ new ∧ Forall P new.

(** There is a speaker. *)
Definition has_speaker (st : state) : Prop := is_Some (self_speaker st).

(** The same state with another trace. *)
Definition with_trace (st : state) (tr : list event) : state :=
  State (self_config_file st) (self_speaker st) tr.

(** A computation is uniform when the configuration path and the trace
    it starts from change nothing but the trace it ends with: the result,
    the speaker and the events appended are the same. *)
Definition uniform {A} (m : M A) : Prop :=
  ∀ st, ∃ new, ∀ cf tr,
    m (State cf (self_speaker st) tr)
    = ((m st).1, State cf (self_speaker (m st).2) (tr ++ new)).

(** A speaker whose methods raise nothing but [RuntimeConfigError]. *)
Definition rejects_only : Prop :=
  ∀ op kw s e, (method op kw s).1 = Some e →
               isinstance e "RuntimeConfigError" = true.

(** The part of [start] that acts on the BGP and SSH sections. *)
Definition after_logging (settings : pymodule) : M unit :=
  (match settings !! "BGP" with
   | Some bgp => log_debug "Loading BGP settings..." [];; _start_speaker bgp
   | None => mret tt
   end);;
  (match settings !! "SSH" with
   | Some ssh => log_debug "Loading SSH settings..." [];; start_ssh ssh
   | None => mret tt
   end).
End FurtherVocabulary.

(** * A second environment: settings with a shell section *)

Module Site.
Definition shell : kwargs := {["host" := VStr "localhost"]}.

Definition bgp : kwargs :=
  <["as_number" := VInt 64512]>
    (<["neighbors" := VList (VDict <$> [Sample.valid1; Sample.malformed])]> ∅).

Definition files : Host := {|
  isfile p :=
    bool_decide (p ∈ ["/etc/ryu/shell.py"; "/etc/ryu/logging.py";
                      "/etc/ryu/word.py"; "/etc/ryu/broken.py"]);
  load_source _ p :=
    if bool_decide (p = "/etc/ryu/shell.py") then inr {["SSH" := VDict shell]}
    else if bool_decide (p = "/etc/ryu/logging.py") then
      inr (<["LOGGING" := VDict ∅]> {["SSH" := VDict shell]})
    else if bool_decide (p = "/etc/ryu/word.py") then
      inr {["SSH" := VStr "localhost"]}
    else inl (Sample.SyntaxError "invalid syntax");
  import_ssh := None
|}.

(** A speaker that rejects an entry whose [address] is [None] with a
    [RuntimeConfigError] and records every other call. *)
Definition accept (op : engine_op) (kw : kwargs) (s : list (engine_op * kwargs))
  : option exn * list (engine_op * kwargs) :=
  match kw !! "address" with
  | Some VNone => (Some (Sample.RuntimeConfigError "address is required"), s)
  | _ => (None, s ++ [(op, kw)])
  end.

Definition lenient : Engine := {|
  engine := list (engine_op * kwargs);
  BGPSpeaker kw := inr [];
  neighbor_add := accept NeighborAdd;
  vrf_add := accept VrfAdd;
  prefix_add := accept PrefixAdd;
  evpn_prefix_add := accept EvpnPrefixAdd
|}.

(** The application as [__init__] leaves it, with and without a
    configuration file, and one that has a speaker. *)
Definition idle : @state lenient := @State lenient None None [].

Definition configured (path : string) : @state lenient :=
  @State lenient (Some path) None [].

Definition running : @state lenient := @State lenient None (Some []) [].

Definition local : conf := Conf None "192.0.2.1" 50002.
End Site.

(** * Lemmas *)

Section Loader.
Context `{BgpBase, RtConf, Validation, Host, Engine}.

(** [load_config] on a path that names a file: what [load_source]
    returns or raises decides the result. *)
Lemma load_config_file (path : string) (st : state) :
  path ≠ "" → isfile path = true →
  load_config (Some path) st
  = (match load_source settings_module path with
     | inr m => inr m
     | inl e =>
         inl (if isinstance e "Exception"
              then ApplicationException (exn_msg e) else e)
     end,
     State (self_config_file st) (self_speaker st)
       (trace st ++ [LoadSource settings_module path
                       (match load_source settings_module path with
                        | inl e => Some e | inr _ => None end)])).
Proof.
  intros Hne Hfile. unfold load_config, settings_module.
  destruct path as [|c path]; [done|]. cbn [py_bool negb orb].
  rewrite Hfile. cbn [negb].
  unfold try_except, call_load_source, raise.
  destruct (load_source _ _) as [e|m]; [|done].
  by destruct (isinstance e "Exception").
Qed.

Lemma load_config_invalid (config_file : option string) (st : state) :
  py_bool config_file = false ∨ (∃ p, config_file = Some p ∧ isfile p = false) →
  load_config config_file st
  = (inl (ApplicationException
            ("Invalid configuration file: " +:+ py_str config_file)), st).
Proof.
  intros [Hb | (p & -> & Hp)]; unfold load_config.
  - destruct config_file as [p|]; [|done]. by rewrite Hb.
  - rewrite Hp. by rewrite orb_true_r.
Qed.
End Loader.

Lemma steps_app (tr1 tr2 : list event) : steps (tr1 ++ tr2) = steps tr1 ++ steps tr2.
Proof. apply omap_app. Qed.

Lemma actions_app (tr1 tr2 : list event) :
  actions (tr1 ++ tr2) = actions tr1 ++ actions tr2.
Proof. apply omap_app. Qed.

Section Quiet.
Context `{BgpBase, RtConf, Validation, Host, Engine}.

Lemma quiet_ret {A} (x : A) : quiet (mret x).
Proof. intros st. exists []. by rewrite app_nil_r. Qed.

Lemma quiet_lift {A} (r : exn + A) : quiet (lift r).
Proof. intros st. exists []. by rewrite app_nil_r. Qed.

Lemma quiet_raise {A} (e : exn) : quiet (raise (A:=A) e).
Proof. intros st. exists []. by rewrite app_nil_r. Qed.

Lemma quiet_emit (ev : event) : step_of ev = None → quiet (emit ev).
Proof. intros Hev st. exists [ev]. split; [done|]. unfold steps. cbn. by rewrite Hev. Qed.

Lemma quiet_bind {A B} (m : M A) (f : A → M B) :
  quiet m → (∀ x, quiet (f x)) → quiet (m ≫= f).
Proof.
  intros Hm Hf st. destruct (Hm st) as (new1 & E1 & Q1).
  unfold mbind, M_bind. destruct (m st) as [[e|x] st1]; cbn in *.
  - by exists new1.
  - destruct (Hf x st1) as (new2 & E2 & Q2).
    exists (new1 ++ new2). rewrite E2, E1, steps_app, Q1, Q2.
    by rewrite (assoc_L (++)).
Qed.

Lemma quiet_try_except {A} (body : M A) (cls : string) (handler : exn → M A) :
  quiet body → (∀ e, quiet (handler e)) → quiet (try_except body cls handler).
Proof.
  intros Hm Hh st. destruct (Hm st) as (new1 & E1 & Q1).
  unfold try_except. destruct (body st) as [[e|x] st1]; cbn in *.
  - destruct (isinstance e cls); [|by exists new1].
    destruct (Hh e st1) as (new2 & E2 & Q2).
    exists (new1 ++ new2). rewrite E2, E1, steps_app, Q1, Q2.
    by rewrite (assoc_L (++)).
  - by exists new1.
Qed.

Lemma quiet_for_each (items : list pyval) (body : pyval → M unit) :
  (∀ x, quiet (body x)) → quiet (for_each items body).
Proof.
  intros Hb. induction items as [|x items IH]; cbn [for_each].
  - apply quiet_ret.
  - apply quiet_bind; auto.
Qed.

Lemma quiet_for_in (v : pyval) (body : pyval → M unit) :
  (∀ x, quiet (body x)) → quiet (for_in v body).
Proof.
  intros Hb. apply quiet_bind; [apply quiet_lift|].
  intros items. by apply quiet_for_each.
Qed.

Lemma quiet_speaker_attr (op : engine_op) : quiet (speaker_attr op).
Proof.
  intros st. exists []. unfold speaker_attr.
  destruct (self_speaker st); by rewrite app_nil_r.
Qed.

Lemma quiet_invoke (op : engine_op) (kw : kwargs) : quiet (invoke op kw).
Proof.
  intros st. unfold invoke. destruct (self_speaker st) as [s|].
  - destruct (method op kw s) as [[e|] s']; eexists [_]; by split.
  - exists []. by rewrite app_nil_r.
Qed.

Lemma quiet_apply_method (op : engine_op) (v : pyval) : quiet (apply_method op v).
Proof.
  apply quiet_bind; [apply quiet_lift|]. intros kw. apply quiet_invoke.
Qed.

Lemma quiet_guarded (call : M unit) : quiet call → quiet (guarded call).
Proof.
  intros Hc. apply quiet_try_except; [done|]. intros e. by apply quiet_emit.
Qed.

Lemma quiet_log_debug (fmt : string) (args : list pyval) : quiet (log_debug fmt args).
Proof. by apply quiet_emit. Qed.

Lemma quiet_add_neighbors (v : pyval) : quiet (_add_neighbors v).
Proof.
  apply quiet_for_in. intros x.
  apply quiet_bind; [apply quiet_log_debug|]. intros _.
  apply quiet_guarded, quiet_bind; [apply quiet_speaker_attr|].
  intros m. apply quiet_apply_method.
Qed.

Lemma quiet_add_vrfs (v : pyval) : quiet (_add_vrfs v).
Proof.
  apply quiet_for_in. intros x.
  apply quiet_bind; [apply quiet_log_debug|]. intros _.
  apply quiet_guarded, quiet_bind; [apply quiet_speaker_attr|].
  intros m. apply quiet_apply_method.
Qed.

Lemma quiet_add_routes (v : pyval) : quiet (_add_routes v).
Proof.
  apply quiet_for_in. intros x.
  apply quiet_bind; [apply quiet_lift|]. intros has_prefix.
  apply quiet_bind.
  - destruct has_prefix.
    + apply quiet_bind; [apply quiet_speaker_attr|]. intros m. apply quiet_ret.
    + apply quiet_bind; [apply quiet_lift|]. intros [|].
      * apply quiet_bind; [apply quiet_speaker_attr|]. intros m. apply quiet_ret.
      * apply quiet_ret.
  - intros [op|]; [|apply quiet_log_debug].
    apply quiet_bind; [apply quiet_log_debug|]. intros _.
    apply quiet_guarded, quiet_apply_method.
Qed.
End Quiet.

Section Bootstrap.
Context `{BgpBase, RtConf, Validation, Host, Engine}.

Lemma start_speaker_dict (d : kwargs) (st : state) :
  _start_speaker (VDict d) st
  = (log_debug "Starting BGPSpeaker..." [];;
     construct (bgp_settings_of d);;
     load_lists d) st.
Proof. reflexivity. Qed.

Lemma quiet_load_lists (d : kwargs) : quiet (load_lists d).
Proof.
  unfold load_lists.
  repeat (apply quiet_bind; [first [apply quiet_log_debug | apply quiet_add_neighbors
                                   | apply quiet_add_vrfs] | intros _]).
  apply quiet_add_routes.
Qed.

(** On a dictionary, the constructor is always reached, with the
    collected keyword arguments, and nothing but one debug record
    precedes it. *)
Lemma start_speaker_constructs (d : kwargs) (st : state) :
  ∃ rest,
    trace (_start_speaker (VDict d) st).2
    = trace st ++ LogDebug "Starting BGPSpeaker..." []
        :: Construct (bgp_settings_of d) (outcome (BGPSpeaker (bgp_settings_of d)))
        :: rest
    ∧ steps rest = []
    ∧ (is_Some (outcome (BGPSpeaker (bgp_settings_of d))) →
       (_start_speaker (VDict d) st).1 = inl (default (Exn [] "") (outcome (BGPSpeaker (bgp_settings_of d)))) ∧ rest = []).
Proof.
  rewrite start_speaker_dict.
  unfold mbind, M_bind, log_debug, emit, construct. cbn.
  destruct (BGPSpeaker (bgp_settings_of d)) as [e|s]; cbn.
  - exists []. rewrite <- (assoc_L (++)). cbn. eauto.
  - match goal with |- context [load_lists d ?st1] =>
      destruct (quiet_load_lists d st1) as (new & E & Q) end.
    exists new. rewrite E. cbn. rewrite <- !(assoc_L (++)). cbn.
    split; [done|]. split; [done|]. by intros [? ?].
Qed.
End Bootstrap.

Section Loaders.
Context `{BgpBase, RtConf, Validation, Host, Engine}.

Lemma for_each_cons (x : pyval) (items : list pyval) (body : pyval → M unit)
    (st : state) :
  for_each (x :: items) body st
  = match body x st with
    | (inr _, st') => for_each items body st'
    | (inl e, st') => (inl e, st')
    end.
Proof. reflexivity. Qed.

Lemma for_each_applied (body : pyval → M unit)
    (attempt : kwargs → option (engine_op * kwargs)) :
  one_attempt body attempt →
  ∀ ds st s, self_speaker st = Some s →
    ∃ new,
      trace (for_each (VDict <$> ds) body st).2 = trace st ++ new
      ∧ applied_in_order (omap attempt ds) (for_each (VDict <$> ds) body st).1 new.
Proof.
  intros Hbody ds. induction ds as [|d ds IH]; intros st s Hs.
  - exists []. cbn. rewrite app_nil_r. split; [done|].
    exists []. cbn. repeat split; auto.
  - destruct (Hbody d st s Hs) as (dbg & Hdbg & Hrun).
    cbn [fmap list_fmap omap list_omap]. rewrite for_each_cons.
    destruct (attempt d) as [[op kw]|].
    + rewrite Hrun. destruct (method op kw s) as [o s']. cbn [fst snd].
      destruct o as [e|]; [destruct (isinstance e "RuntimeConfigError") eqn:He|].
      * match goal with |- context [for_each ?a body ?st1] =>
          destruct (IH st1 s' eq_refl) as (new & E & outs & Hlen & Hact & Hres);
          destruct (for_each a body st1) as [r st2] end; cbn [fst snd trace] in *.
        exists ((dbg ++ attempt_events (op, kw) (Some e)) ++ new).
        rewrite E. cbn [trace]. rewrite !(assoc_L (++)). split; [done|].
        exists (Some e :: outs). cbn [length zip_with concat].
        split; [lia|]. split.
        { rewrite <- !(assoc_L (++)), !actions_app, Hdbg, Hact.
          unfold attempt_events. cbn. by rewrite He. }
        destruct r as [e'|u].
        -- destruct Hres as (outs' & -> & Hall & He').
           exists (Some e :: outs'). split; [done|]. split; [|done].
           constructor; [|done]. cbn. by rewrite He.
        -- destruct Hres as [Hl Hall]. split; [lia|].
           constructor; [|done]. cbn. by rewrite He.
      * exists (dbg ++ attempt_events (op, kw) (Some e)). cbn [fst snd trace].
        split; [done|]. exists [Some e]. cbn [length zip_with concat].
        split; [lia|]. split.
        { rewrite zip_with_nil_r, actions_app, Hdbg. unfold attempt_events. cbn.
          by rewrite He. }
        exists []. by repeat split.
      * match goal with |- context [for_each ?a body ?st1] =>
          destruct (IH st1 s' eq_refl) as (new & E & outs & Hlen & Hact & Hres);
          destruct (for_each a body st1) as [r st2] end; cbn [fst snd trace] in *.
        exists ((dbg ++ attempt_events (op, kw) None) ++ new).
        rewrite E. cbn [trace]. rewrite !(assoc_L (++)). split; [done|].
        exists (None :: outs). cbn [length zip_with concat].
        split; [lia|]. split.
        { rewrite <- !(assoc_L (++)), !actions_app, Hdbg, Hact. done. }
        destruct r as [e'|u].
        -- destruct Hres as (outs' & -> & Hall & He').
           exists (None :: outs'). split; [done|]. split; [|done].
           by constructor.
        -- destruct Hres as [Hl Hall]. split; [lia|]. by constructor.
    + rewrite Hrun.
      match goal with |- context [for_each ?a body ?st1] =>
        destruct (IH st1 s eq_refl) as (new & E & Happ);
        destruct (for_each a body st1) as [r st2] end; cbn [fst snd trace] in *.
      exists (dbg ++ new). rewrite E. cbn [trace]. rewrite (assoc_L (++)).
      split; [done|].
      destruct Happ as (outs & Hlen & Hact & Hres).
      exists outs. split; [done|]. split; [|done].
      by rewrite actions_app, Hdbg.
Qed.
End Loaders.

Section LoaderBodies.
Context `{BgpBase, RtConf, Validation, Host, Engine}.

Lemma for_in_list (xs : list pyval) (body : pyval → M unit) (st : state) :
  for_in (VList xs) body st = for_each xs body st.
Proof. reflexivity. Qed.

(** The guarded call of a method on a dictionary, when there is a
    speaker. *)
Lemma guarded_apply_method (op : engine_op) (d : kwargs) (st : state) (s : engine) :
  self_speaker st = Some s →
  guarded (apply_method op (VDict d)) st
  = (match (method op d s).1 with
     | Some e => if isinstance e "RuntimeConfigError" then inr tt else inl e
     | None => inr tt
     end,
     State (self_config_file st) (Some (method op d s).2)
       (trace st ++ attempt_events (op, d) (method op d s).1)).
Proof.
  intros Hs. unfold guarded, try_except, apply_method, invoke, mbind, M_bind, lift.
  cbn [py_kwargs]. rewrite Hs. unfold attempt_events.
  destruct (method op d s) as [[e|] s']; cbn [fst snd]; [|done].
  destruct (isinstance e "RuntimeConfigError"); [|done].
  unfold log_exception, emit. cbn. by rewrite <- (assoc_L (++)).
Qed.

Lemma guarded_method_call (op : engine_op) (d : kwargs) (st : state) (s : engine) :
  self_speaker st = Some s →
  guarded (m ← speaker_attr op; apply_method m (VDict d)) st
  = guarded (apply_method op (VDict d)) st.
Proof.
  intros Hs. unfold guarded, try_except, mbind at 1, M_bind at 1, speaker_attr.
  by rewrite Hs.
Qed.

Lemma neighbors_one_attempt :
  one_attempt
    (λ neighbor_settings,
       log_debug "Adding neighbor settings: %s" [neighbor_settings];;
       guarded (m ← speaker_attr NeighborAdd; apply_method m neighbor_settings))
    (λ d, Some (NeighborAdd, d)).
Proof.
  intros d st s Hs. exists [LogDebug "Adding neighbor settings: %s" [VDict d]].
  split; [done|]. unfold mbind at 1, M_bind at 1, log_debug, emit.
  rewrite (guarded_method_call _ _ _ s), (guarded_apply_method _ _ _ s) by done.
  cbn [trace self_config_file]. by rewrite <- (assoc_L (++)).
Qed.

Lemma vrfs_one_attempt :
  one_attempt
    (λ vrf_settings,
       log_debug "Adding VRF settings: %s" [vrf_settings];;
       guarded (m ← speaker_attr VrfAdd; apply_method m vrf_settings))
    (λ d, Some (VrfAdd, d)).
Proof.
  intros d st s Hs. exists [LogDebug "Adding VRF settings: %s" [VDict d]].
  split; [done|]. unfold mbind at 1, M_bind at 1, log_debug, emit.
  rewrite (guarded_method_call _ _ _ s), (guarded_apply_method _ _ _ s) by done.
  cbn [trace self_config_file]. by rewrite <- (assoc_L (++)).
Qed.

(** One route entry, by its kind. *)
Lemma add_routes_entry (d : kwargs) (st : state) (s : engine) :
  self_speaker st = Some s →
  _add_routes (VList [VDict d]) st
  = match route_kind d with
    | Some op =>
        (guarded (apply_method op (VDict d)))
          (State (self_config_file st) (self_speaker st)
             (trace st ++ [LogDebug "Adding route settings: %s" [VDict d]]))
    | None =>
        (inr tt, State (self_config_file st) (self_speaker st)
                   (trace st ++ [LogDebug "Skip invalid route settings: %s" [VDict d]]))
    end.
Proof.
  intros Hs.
  cbv beta iota delta [_add_routes for_in for_each py_iter route_kind mbind M_bind
                         lift speaker_attr mret M_ret py_contains log_debug emit].
  destruct (bool_decide (is_Some (d !! "prefix"))); cbv beta iota;
    rewrite ?Hs; cbv beta iota.
  - match goal with |- context [guarded ?m ?st1] =>
      destruct (guarded m st1) as [[e|[]] st2] end; done.
  - destruct (bool_decide (is_Some (d !! "route_type"))); cbv beta iota;
      rewrite ?Hs; cbv beta iota; [|done].
    match goal with |- context [guarded ?m ?st1] =>
      destruct (guarded m st1) as [[e|[]] st2] end; done.
Qed.
End LoaderBodies.

Section Routes.
Context `{BgpBase, RtConf, Validation, Host, Engine}.

Lemma for_each_app (xs ys : list pyval) (body : pyval → M unit) (st : state) :
  for_each (xs ++ ys) body st = (for_each xs body;; for_each ys body) st.
Proof.
  revert st. induction xs as [|x xs IH]; intros st; [done|].
  cbn [app]. rewrite for_each_cons. unfold mbind at 1, M_bind at 1.
  rewrite for_each_cons. destruct (body x st) as [[e|[]] st1]; [done|].
  rewrite IH. done.
Qed.

Lemma add_routes_app (xs ys : list pyval) (st : state) :
  _add_routes (VList (xs ++ ys)) st
  = (_add_routes (VList xs);; _add_routes (VList ys)) st.
Proof. unfold _add_routes. rewrite for_in_list. apply for_each_app. Qed.

Lemma add_routes_each (xs : list pyval) (st : state) :
  _add_routes (VList xs) st = for_each xs (λ x, _add_routes (VList [x])) st.
Proof.
  revert st. induction xs as [|x xs IH]; intros st; [done|].
  change (x :: xs) with ([x] ++ xs). rewrite add_routes_app.
  cbn [app]. rewrite for_each_cons. unfold mbind, M_bind.
  destruct (_add_routes (VList [x]) st) as [[e|[]] st1]; [done|]. apply IH.
Qed.

Lemma routes_one_attempt :
  one_attempt (λ x, _add_routes (VList [x])) route_attempt.
Proof.
  intros d st s Hs. rewrite (add_routes_entry d st s Hs).
  unfold route_attempt. destruct (route_kind d) as [op|]; cbn [fmap option_fmap option_map].
  - exists [LogDebug "Adding route settings: %s" [VDict d]]. split; [done|].
    rewrite (guarded_apply_method _ _ _ s) by by rewrite <- Hs.
    cbn [trace self_config_file]. by rewrite <- (assoc_L (++)).
  - exists [LogDebug "Skip invalid route settings: %s" [VDict d]]. by rewrite Hs.
Qed.
End Routes.


(** Evaluation of the monad's primitives. *)
Ltac run :=
  cbv beta iota delta [mbind M_bind mret M_ret lift raise gets emit log_debug
                         log_exception spawn super_start py_kwargs outcome];
  cbn [fst snd trace self_speaker self_config_file].

Section Start.
Context `{BgpBase, RtConf, Validation, Host, Engine}.

Lemma bind_run {A B} (m : M A) (f : A → M B) (st : state) :
  (m ≫= f) st
  = match m st with
    | (inr x, st') => f x st'
    | (inl e, st') => (inl e, st')
    end.
Proof. reflexivity. Qed.

Lemma start_unfold (CONF : conf) (st : state) :
  start CONF st
  = (super_start;;
     self_config_file ← gets self_config_file;
     (if py_bool self_config_file then
        log_debug "Loading config file %s..." [py_of self_config_file];;
        settings ← load_config self_config_file;
        configure settings
      else mret tt);;
     launch_control CONF) st.
Proof. reflexivity. Qed.

Lemma steps_cons (ev : event) (tr : list event) :
  steps (ev :: tr)
  = match step_of ev with
    | Some s => s :: steps tr
    | None => steps tr
    end.
Proof. reflexivity. Qed.

Lemma quiet_takes {A} (m : M A) : quiet m → takes m [].
Proof.
  intros Hq st. destruct (Hq st) as (new & E & Q). exists new.
  rewrite Q. by repeat split.
Qed.

Lemma takes_bind {A B} (m : M A) (f : A → M B) (p1 p2 : list step) :
  takes m p1 → (∀ x, takes (f x) p2) → takes (m ≫= f) (p1 ++ p2).
Proof.
  intros Hm Hf st. destruct (Hm st) as (new1 & E1 & P1 & F1).
  rewrite bind_run. destruct (m st) as [[e|x] st1]; cbn [fst snd outcome] in *.
  - exists new1. split; [done|]. split; [by apply prefix_app_r|done].
  - destruct (Hf x st1) as (new2 & E2 & P2 & F2).
    exists (new1 ++ new2). rewrite E2, E1, steps_app, F1 by done.
    split; [by rewrite (assoc_L (++))|]. split.
    + by apply prefix_app.
    + intros Hr. by rewrite F2.
Qed.

Lemma takes_start_speaker (v : pyval) : takes (_start_speaker v) [Bootstrap].
Proof.
  intros st.
  destruct v as [| | | | | |d];
    try (exists []; rewrite app_nil_r; split; [done|];
         split; [apply prefix_nil|done]).
  destruct (start_speaker_constructs d st) as (rest & E & Q & _).
  eexists. split; [exact E|]. rewrite !steps_cons. cbn [step_of]. rewrite Q.
  by split.
Qed.

Lemma takes_start_ssh (v : pyval) : takes (start_ssh v) [Shell].
Proof.
  intros st. unfold start_ssh.
  destruct import_ssh as [e|]; run.
  - eexists [_]. split; [done|]. split; [apply prefix_nil|done].
  - destruct v as [| | | | | |d]; run;
      try (eexists [_]; split; [done|]; split; [apply prefix_nil|done]).
    eexists [_; _]. rewrite <- (assoc_L (++)). by split.
Qed.

Lemma takes_launch_control (CONF : conf) : takes (launch_control CONF) [Control].
Proof.
  intros st. unfold launch_control.
  destruct (validate_rpc_host (rpc_host CONF)) as [e|ip]; run.
  - exists []. rewrite app_nil_r. split; [done|]. split; [apply prefix_nil|done].
  - eexists [_]. by split.
Qed.

Lemma takes_configure (settings : pymodule) :
  takes (configure settings)
    ((if bool_decide (is_Some (settings !! "BGP")) then [Bootstrap] else [])
     ++ (if bool_decide (is_Some (settings !! "SSH")) then [Shell] else [])).
Proof.
  unfold configure.
  apply (takes_bind _ _ []).
  { apply quiet_takes. destruct (bool_decide _); [apply quiet_log_debug|apply quiet_ret]. }
  intros _. apply takes_bind.
  - destruct (settings !! "BGP") as [bgp|]; cbn.
    + apply (takes_bind _ _ []); [apply quiet_takes, quiet_log_debug|].
      intros _. apply takes_start_speaker.
    + apply quiet_takes, quiet_ret.
  - intros _. destruct (settings !! "SSH") as [ssh|]; cbn.
    + apply (takes_bind _ _ []); [apply quiet_takes, quiet_log_debug|].
      intros _. apply takes_start_ssh.
    + apply quiet_takes, quiet_ret.
Qed.
End Start.

Section StartRuns.
Context `{BgpBase, RtConf, Validation, Host, Engine}.

(** [start] up to the loaded settings: what remains is [configure] and
    [launch_control]. *)
Lemma start_loaded (CONF : conf) (st : state) (p : string) (m : pymodule) :
  self_config_file st = Some p → p ≠ "" → isfile p = true →
  load_source settings_module p = inr m →
  start CONF st
  = (configure m;; launch_control CONF)
      (State (self_config_file st) (self_speaker st)
         (trace st ++ [SuperStart;
                       LogDebug "Loading config file %s..." [VStr p];
                       LoadSource settings_module p None])).
Proof.
  intros Hcf Hne Hfile Hload. rewrite start_unfold. run. rewrite Hcf.
  destruct p as [|c p]; [done|]. cbn [py_bool py_of]. run.
  rewrite load_config_file by done. rewrite Hload. run.
  by rewrite <- !(assoc_L (++)).
Qed.

(** [start] without a configuration file: only the control channel. *)
Lemma start_unconfigured (CONF : conf) (st : state) :
  py_bool (self_config_file st) = false →
  start CONF st
  = launch_control CONF
      (State (self_config_file st) (self_speaker st) (trace st ++ [SuperStart])).
Proof.
  intros Hcf. rewrite start_unfold. run. rewrite Hcf. run.
  by destruct (launch_control CONF _) as [[e|t] st1].
Qed.

(** [start] with a configuration file that does not load. *)
Lemma start_not_loaded (CONF : conf) (st : state) :
  py_bool (self_config_file st) = true →
  ¬ loads (self_config_file st) →
  ∃ e new,
    start CONF st = (inl e, State (self_config_file st) (self_speaker st)
                              (trace st ++ new))
    ∧ steps new `prefix_of` [Load].
Proof.
  intros Hcf Hnl. rewrite start_unfold. run. rewrite Hcf. run.
  destruct (self_config_file st) as [p|] eqn:Hp; [|done].
  destruct (isfile p) eqn:Hfile.
  - assert (p ≠ "") as Hne by (by intros ->).
    rewrite load_config_file by done.
    destruct (load_source settings_module p) as [e|m] eqn:Hload.
    + run. eexists _, [_; _; _].
      rewrite <- !(assoc_L (++)). split; [reflexivity|]. done.
    + destruct Hnl. right. eauto.
  - rewrite load_config_invalid by (right; eauto). run.
    eexists _, [_; _].
    rewrite <- !(assoc_L (++)). split; [reflexivity|]. apply prefix_nil.
Qed.

Lemma document_loaded (p : string) (m : pymodule) :
  p ≠ "" → isfile p = true → load_source settings_module p = inr m →
  document (Some p) = m.
Proof.
  intros Hne Hfile Hload. unfold document.
  destruct p as [|c p]; [done|]. cbn [py_bool andb]. by rewrite Hfile, Hload.
Qed.

Lemma document_unconfigured (config_file : option string) :
  py_bool config_file = false → document config_file = ∅.
Proof. intros Hb. unfold document. destruct config_file; [|done]. by rewrite Hb. Qed.
End StartRuns.

Section StartPlan.
Context `{BgpBase, RtConf, Validation, Host, Engine}.

Lemma validate_rpc_host_valid (ip : string) :
  is_valid_ipv4 ip = true ∨ is_valid_ipv6 ip = true → validate_rpc_host ip = inr ip.
Proof.
  unfold validate_rpc_host. intros [-> | ->]; [done|]. by rewrite andb_false_r.
Qed.

Lemma validate_rpc_host_invalid (ip : string) :
  is_valid_ipv4 ip = false → is_valid_ipv6 ip = false →
  validate_rpc_host ip
  = inl (ApplicationException ("Invalid RPC ip address: " +:+ ip)).
Proof. unfold validate_rpc_host. by intros -> ->. Qed.

Lemma launch_control_valid (CONF : conf) (st : state) :
  is_valid_ipv4 (rpc_host CONF) = true ∨ is_valid_ipv6 (rpc_host CONF) = true →
  launch_control CONF st
  = (inr (Task NET_CONTROLLER_start (rpc_settings CONF)),
     State (self_config_file st) (self_speaker st)
       (trace st ++ [Spawn NET_CONTROLLER_start (rpc_settings CONF)])).
Proof.
  intros Hv. unfold launch_control. by rewrite (validate_rpc_host_valid _ Hv).
Qed.

Lemma configure_bare (m : pymodule) (st : state) :
  m !! "BGP" = None → m !! "SSH" = None →
  (configure m st).1 = inr tt.
Proof.
  intros Hb Hs. unfold configure. rewrite Hb, Hs.
  by destruct (bool_decide (is_Some (m !! "LOGGING"))).
Qed.

(** The steps [start] takes are an initial segment of its plan, and the
    whole plan when it returns. *)
Lemma start_takes_plan (CONF : conf) (st : state) :
  ∃ new,
    trace (start CONF st).2 = trace st ++ new
    ∧ steps new `prefix_of` plan (self_config_file st)
    ∧ (outcome (start CONF st).1 = None → steps new = plan (self_config_file st)).
Proof.
  unfold plan. destruct (py_bool (self_config_file st)) eqn:Hcf.
  - destruct (self_config_file st) as [p|] eqn:Hp; [|done].
    assert (p ≠ "") as Hne by (by intros ->).
    destruct (isfile p) eqn:Hfile;
      [destruct (load_source settings_module p) as [e|m] eqn:Hload|].
    + destruct (start_not_loaded CONF st) as (e' & new & E & P).
      { by rewrite Hp. }
      { rewrite Hp. intros [?|(p' & m & [= <-] & _ & Hm)]; congruence. }
      exists new. rewrite E. split; [done|]. split; [|done].
      by apply prefix_app_r.
    + rewrite (start_loaded CONF st p m), (document_loaded p m) by done.
      match goal with |- context [(configure m;; launch_control CONF) ?st1] =>
        destruct (takes_bind _ _ _ _ (takes_configure m)
                    (λ _, takes_launch_control CONF) st1) as (new & E & P & F) end.
      exists ([SuperStart; LogDebug "Loading config file %s..." [VStr p];
               LoadSource settings_module p None] ++ new).
      rewrite E. cbn [trace]. rewrite (assoc_L (++)). split; [done|].
      rewrite steps_app. change (steps [_; _; _]) with [Load].
      rewrite <- (assoc_L (++)) in P, F. split.
      * by apply prefix_app.
      * intros Hr. by rewrite F.
    + destruct (start_not_loaded CONF st) as (e' & new & E & P).
      { by rewrite Hp. }
      { rewrite Hp. intros [?|(p' & m & [= <-] & ? & _)]; congruence. }
      exists new. rewrite E. split; [done|]. split; [|done].
      by apply prefix_app_r.
  - rewrite start_unconfigured, document_unconfigured by done.
    rewrite lookup_empty. cbn.
    match goal with |- context [launch_control CONF ?st1] =>
      destruct (takes_launch_control CONF st1) as (new & E & P & F) end.
    exists (SuperStart :: new). rewrite E. cbn [trace].
    rewrite <- (assoc_L (++)). by split.
Qed.

(** With neither section to act on and a valid bind address, [start]
    returns the handle of the control channel. *)
Lemma start_bare_returns (CONF : conf) (st : state) :
  loads (self_config_file st) →
  document (self_config_file st) !! "BGP" = None →
  document (self_config_file st) !! "SSH" = None →
  is_valid_ipv4 (rpc_host CONF) = true ∨ is_valid_ipv6 (rpc_host CONF) = true →
  (start CONF st).1 = inr (Task NET_CONTROLLER_start (rpc_settings CONF)).
Proof.
  intros [Hcf|(p & m & Hp & Hfile & Hload)] Hb Hs Hv.
  - rewrite start_unconfigured by done. by rewrite launch_control_valid.
  - destruct (decide (p = "")) as [->|Hne].
    + rewrite start_unconfigured by by rewrite Hp. by rewrite launch_control_valid.
    + rewrite Hp, (document_loaded p m) in Hb, Hs by done.
      rewrite (start_loaded CONF st p m) by done. rewrite bind_run.
      match goal with |- context [configure m ?st1] =>
        pose proof (configure_bare m st1 Hb Hs) as Hc;
        destruct (configure m st1) as [[e|[]] st2] end; [done|].
      by rewrite launch_control_valid.
Qed.

(** An exception of [_start_speaker] is the outcome of [start]. *)
Lemma start_bootstrap_raises (CONF : conf) (st : state) (p : string)
    (m : pymodule) (bgp : pyval) (e : exn) :
  self_config_file st = Some p → p ≠ "" → isfile p = true →
  load_source settings_module p = inr m → m !! "BGP" = Some bgp →
  (_start_speaker bgp (before_bootstrap st p m)).1 = inl e →
  start CONF st = (inl e, (_start_speaker bgp (before_bootstrap st p m)).2).
Proof.
  intros Hcf Hne Hfile Hload Hbgp Hrun.
  rewrite (start_loaded CONF st p m) by done.
  unfold configure, before_bootstrap in *. rewrite Hbgp.
  destruct (bool_decide (is_Some (m !! "LOGGING"))); run;
    rewrite <- ?(assoc_L (++)); cbn [app] in *;
    destruct (_start_speaker bgp _) as [[e'|[]] st2]; cbn [fst snd] in *; congruence.
Qed.

Lemma launch_control_invalid (CONF : conf) (st : state) :
  is_valid_ipv4 (rpc_host CONF) = false → is_valid_ipv6 (rpc_host CONF) = false →
  launch_control CONF st
  = (inl (ApplicationException ("Invalid RPC ip address: " +:+ rpc_host CONF)), st).
Proof.
  intros H4 H6. unfold launch_control.
  by rewrite (validate_rpc_host_invalid _ H4 H6).
Qed.

(** With an invalid bind address [start] raises on every path, the
    control channel is not among the steps it took, and with nothing to
    configure the exception is that of [validate_rpc_host]. *)
Lemma start_invalid_host (CONF : conf) (st : state) :
  is_valid_ipv4 (rpc_host CONF) = false → is_valid_ipv6 (rpc_host CONF) = false →
  ∃ e new,
    (start CONF st).1 = inl e
    ∧ trace (start CONF st).2 = trace st ++ new
    ∧ (Control ∉ steps new)
    ∧ (loads (self_config_file st) →
       document (self_config_file st) !! "BGP" = None →
       document (self_config_file st) !! "SSH" = None →
       e = ApplicationException ("Invalid RPC ip address: " +:+ rpc_host CONF)
       ∧ steps new = (if py_bool (self_config_file st) then [Load] else [])).
Proof.
  intros H4 H6.
  assert (∀ new e',
            start CONF st
            = (inl e', State (self_config_file st) (self_speaker st) (trace st ++ new)) →
            steps new `prefix_of` [Load] → ¬ loads (self_config_file st) →
            ∃ e new,
              (start CONF st).1 = inl e
              ∧ trace (start CONF st).2 = trace st ++ new
              ∧ (Control ∉ steps new)
              ∧ (loads (self_config_file st) →
                 document (self_config_file st) !! "BGP" = None →
                 document (self_config_file st) !! "SSH" = None →
                 e = ApplicationException
                       ("Invalid RPC ip address: " +:+ rpc_host CONF)
                 ∧ steps new
                   = (if py_bool (self_config_file st) then [Load] else [])))
    as Hfailed.
  { intros new e' E P Hnl. exists e', new. rewrite E. split; [done|]. split; [done|].
    split; [|by intros Hl; destruct Hnl].
    intros Hin. apply (elem_of_prefix _ _ _ Hin) in P.
    apply elem_of_cons in P as [?|P]; [done|]. by apply elem_of_nil in P. }
  destruct (py_bool (self_config_file st)) eqn:Hcf.
  - destruct (self_config_file st) as [p|] eqn:Hp; [|done].
    assert (p ≠ "") as Hne by (by intros ->).
    destruct (isfile p) eqn:Hfile;
      [destruct (load_source settings_module p) as [e|m] eqn:Hload|].
    + destruct (start_not_loaded CONF st) as (e' & new & E & P).
      { by rewrite Hp. }
      { rewrite Hp. intros [?|(p' & m & [= <-] & _ & Hm)]; congruence. }
      rewrite Hp in E. apply (Hfailed new e' E P).
      intros [?|(p' & m & [= <-] & _ & Hm)]; congruence.
    + rewrite (start_loaded CONF st p m), (document_loaded p m) by done.
      rewrite bind_run.
      match goal with |- context [configure m ?st1] =>
        destruct (takes_configure m st1) as (new & E & P & F);
        pose proof (configure_bare m st1) as Hbare;
        destruct (configure m st1) as [[e|[]] st2] end;
        cbn [fst snd outcome trace] in *.
      * exists e, ([SuperStart; LogDebug "Loading config file %s..." [VStr p];
                    LoadSource settings_module p None] ++ new).
        split; [done|]. split; [by rewrite E, <- (assoc_L (++))|].
        split; [|intros _ Hb Hs; by specialize (Hbare Hb Hs)].
        rewrite steps_app. change (steps [_; _; _]) with [Load].
        intros Hin. apply elem_of_cons in Hin as [?|Hin]; [done|].
        apply (elem_of_prefix _ _ _ Hin) in P.
        destruct (bool_decide (is_Some (m !! "BGP")));
          destruct (bool_decide (is_Some (m !! "SSH"))); cbn [app] in P;
          repeat (apply elem_of_cons in P as [?|P]; [done|]);
          by apply elem_of_nil in P.
      * rewrite launch_control_invalid by done. cbn [fst snd].
        exists (ApplicationException ("Invalid RPC ip address: " +:+ rpc_host CONF)),
          ([SuperStart; LogDebug "Loading config file %s..." [VStr p];
            LoadSource settings_module p None] ++ new).
        split; [done|]. split; [by rewrite E, <- (assoc_L (++))|].
        rewrite steps_app. change (steps [_; _; _]) with [Load].
        rewrite F by done. split.
        -- intros Hin. apply elem_of_cons in Hin as [?|Hin]; [done|].
           destruct (bool_decide (is_Some (m !! "BGP")));
             destruct (bool_decide (is_Some (m !! "SSH"))); cbn [app] in Hin;
             repeat (apply elem_of_cons in Hin as [?|Hin]; [done|]);
             by apply elem_of_nil in Hin.
        -- intros _ Hb Hs. split; [done|]. rewrite Hb, Hs.
           by rewrite !bool_decide_eq_false_2 by by intros [? ?].
    + destruct (start_not_loaded CONF st) as (e' & new & E & P).
      { by rewrite Hp. }
      { rewrite Hp. intros [?|(p' & m & [= <-] & ? & _)]; congruence. }
      rewrite Hp in E. apply (Hfailed new e' E P).
      intros [?|(p' & m & [= <-] & ? & _)]; congruence.
  - rewrite start_unconfigured by done. rewrite launch_control_invalid by done.
    exists (ApplicationException ("Invalid RPC ip address: " +:+ rpc_host CONF)),
      [SuperStart].
    split; [done|]. split; [done|]. split; [|done].
    cbn. apply not_elem_of_nil.
Qed.
End StartPlan.

(** * The claims *)

Section Claims.
Context `{BgpBase, RtConf, Validation, Host, Engine}.

(** C6.  [validate_rpc_host] returns its argument, unchanged, when the
    argument is a valid IPv4 or IPv6 literal; otherwise it raises an
    [ApplicationException] whose description ends in the argument.  It is
    a function of its argument alone: run inside the application it
    leaves the state as it was. *)
Theorem validate_rpc_host_spec (ip : string) :
  (is_valid_ipv4 ip = true ∨ is_valid_ipv6 ip = true →
   validate_rpc_host ip = inr ip)
  ∧ (is_valid_ipv4 ip = false → is_valid_ipv6 ip = false →
     validate_rpc_host ip
     = inl (ApplicationException ("Invalid RPC ip address: " +:+ ip)))
  ∧ (∀ st : state, (lift (validate_rpc_host ip) st).2 = st).
Proof.
  split; [|split].
  - apply validate_rpc_host_valid.
  - apply validate_rpc_host_invalid.
  - done.
Qed.

(** C5, as the code has it.  [load_config] raises an
    [ApplicationException] naming the path when the path is [None], empty,
    or not an existing file.  Otherwise its result is decided by
    [load_source]: the module it returns is returned whole; an exception
    it raises that is an instance of [Exception] is replaced by an
    [ApplicationException] carrying its message; an exception outside
    [Exception] passes through as it is. *)
Theorem load_config_spec (config_file : option string) (st : state) :
  (py_bool config_file = false ∨ (∃ p, config_file = Some p ∧ isfile p = false) →
   load_config config_file st
   = (inl (ApplicationException
             ("Invalid configuration file: " +:+ py_str config_file)), st))
  ∧ (∀ p, config_file = Some p → p ≠ "" → isfile p = true →
     (load_config config_file st).1
     = match load_source settings_module p with
       | inr m => inr m
       | inl e =>
           inl (if isinstance e "Exception"
                then ApplicationException (exn_msg e) else e)
       end).
Proof.
  split.
  - apply load_config_invalid.
  - intros p -> Hne Hfile. by rewrite load_config_file.
Qed.

(** C9.  [ApplicationException] is a subclass of [BGPSException], and it
    is the class of every exception this file raises of its own: for an
    invalid bind address, for an invalid configuration file, for a
    configuration file that fails to load with an [Exception], and in the
    handler of the required BGP settings. *)
Theorem one_exception_class :
  (∀ desc,
     exn_class (ApplicationException desc) = Some "ApplicationException"
     ∧ isinstance (ApplicationException desc) "BGPSException" = true)
  ∧ (∀ ip e, validate_rpc_host ip = inl e → ∃ desc, e = ApplicationException desc)
  ∧ (∀ config_file (st : state) e,
       (load_config config_file st).1 = inl e →
       (∃ desc, e = ApplicationException desc)
       ∨ (isinstance e "Exception" = false
          ∧ ∃ p, load_source settings_module p = inl e))
  ∧ (∀ (body : M kwargs) (st st' : state) e,
       body st = (inl e, st') → isinstance e "KeyError" = true →
       ∃ desc,
         try_except body "KeyError" required_missing st
         = (inl (ApplicationException desc), st')).
Proof.
  split; [|split; [|split]].
  - intros desc. split; [done|]. unfold isinstance, ApplicationException. cbn.
    apply bool_decide_eq_true_2. set_solver.
  - intros ip e. unfold validate_rpc_host.
    destruct (_ && _); [|done]. intros [= <-]. eauto.
  - intros cf st e.
    destruct cf as [p|]; [|rewrite load_config_invalid by (by left);
                            intros [= <-]; eauto].
    destruct (decide (p = "")) as [->|Hne];
      [rewrite load_config_invalid by (by left); intros [= <-]; eauto|].
    destruct (isfile p) eqn:Hfile;
      [|rewrite load_config_invalid by (right; eauto); intros [= <-]; eauto].
    rewrite load_config_file by done. cbn [fst].
    destruct (load_source settings_module p) as [e'|m] eqn:Hload; [|done].
    destruct (isinstance e' "Exception") eqn:He; intros [= <-]; eauto.
  - intros body st st' e Hrun He. unfold try_except. rewrite Hrun, He.
    unfold required_missing, raise. eauto.
Qed.

(** C1, at the section with neither required setting.  [_start_speaker]
    raises nothing of its own: it reads [None] for both, calls the
    constructor with them and the four defaults, and what it returns or
    raises is what the constructor does. *)
Theorem start_speaker_without_required (st : state) :
  let kw : kwargs :=
    <[LABEL_RANGE := DEFAULT_LABEL_RANGE]>
      (<[REFRESH_MAX_EOR_TIME := DEFAULT_REFRESH_MAX_EOR_TIME]>
         (<[REFRESH_STALEPATH_TIME := DEFAULT_REFRESH_STALEPATH_TIME]>
            (<[BGP_SERVER_PORT := DEFAULT_BGP_SERVER_PORT]>
               (<["router_id" := VNone]> (<["as_number" := VNone]> ∅))))) in
  _start_speaker (VDict ∅) st
  = match BGPSpeaker kw with
    | inr s =>
        (inr tt,
         State (self_config_file st) (Some s)
           (trace st ++ [LogDebug "Starting BGPSpeaker..." [];
                         Construct kw None;
                         LogDebug "Adding neighbors..." [];
                         LogDebug "Adding VRFs..." [];
                         LogDebug "Adding routes..." []]))
    | inl e =>
        (inl e,
         State (self_config_file st) (self_speaker st)
           (trace st ++ [LogDebug "Starting BGPSpeaker..." [];
                         Construct kw (Some e)]))
    end.
Proof.
  intros kw. rewrite start_speaker_dict.
  change (bgp_settings_of ∅) with kw.
  unfold load_lists. rewrite !lookup_empty. cbn [default].
  unfold _add_neighbors, _add_vrfs, _add_routes, for_in.
  unfold mbind, M_bind, log_debug, emit, construct, lift. cbn.
  destruct (BGPSpeaker kw) as [e|s]; cbn; by rewrite <- !(assoc_L (++)).
Qed.

(** C8.  Whatever the section holds, the constructor is called, after one
    debug record and nothing else, with each of the four optional
    settings bound to the value the section has under its name, or to its
    default when the section has none.  The four names are assumed
    distinct. *)
Theorem optional_settings_resolved (d : kwargs) (st : state) :
  NoDup [BGP_SERVER_PORT; REFRESH_STALEPATH_TIME; REFRESH_MAX_EOR_TIME; LABEL_RANGE] →
  ∃ kw o rest,
    trace (_start_speaker (VDict d) st).2
    = trace st ++ LogDebug "Starting BGPSpeaker..." [] :: Construct kw o :: rest
    ∧ kw !! BGP_SERVER_PORT
      = Some (default DEFAULT_BGP_SERVER_PORT (d !! BGP_SERVER_PORT))
    ∧ kw !! REFRESH_STALEPATH_TIME
      = Some (default DEFAULT_REFRESH_STALEPATH_TIME (d !! REFRESH_STALEPATH_TIME))
    ∧ kw !! REFRESH_MAX_EOR_TIME
      = Some (default DEFAULT_REFRESH_MAX_EOR_TIME (d !! REFRESH_MAX_EOR_TIME))
    ∧ kw !! LABEL_RANGE = Some (default DEFAULT_LABEL_RANGE (d !! LABEL_RANGE)).
Proof.
  intros Hnd. destruct (start_speaker_constructs d st) as (rest & E & _).
  eexists (bgp_settings_of d), _, rest. split; [exact E|].
  apply NoDup_cons in Hnd as [Hn1 Hnd]. apply NoDup_cons in Hnd as [Hn2 Hnd].
  apply NoDup_cons in Hnd as [Hn3 _].
  unfold bgp_settings_of. repeat split.
  - rewrite !lookup_insert_ne by set_solver. by rewrite lookup_insert_eq.
  - rewrite !lookup_insert_ne by set_solver. by rewrite lookup_insert_eq.
  - rewrite !lookup_insert_ne by set_solver. by rewrite lookup_insert_eq.
  - by rewrite lookup_insert_eq.
Qed.

(** C10.  The constructor is called once, and its keyword arguments are
    exactly [as_number], [router_id] and the four optional names; any
    other key is absent from them; and setting a key that is not one of
    the six the code reads leaves the constructor call as it was. *)
Theorem constructor_arguments (d : kwargs) (st : state) :
  ∃ kw o rest,
    trace (_start_speaker (VDict d) st).2
    = trace st ++ LogDebug "Starting BGPSpeaker..." [] :: Construct kw o :: rest
    ∧ steps rest = []
    ∧ dom kw = {[ "as_number"; "router_id"; BGP_SERVER_PORT;
                  REFRESH_STALEPATH_TIME; REFRESH_MAX_EOR_TIME; LABEL_RANGE ]}
    ∧ (∀ k, k ∉ [ "as_number"; "router_id"; BGP_SERVER_PORT;
                   REFRESH_STALEPATH_TIME; REFRESH_MAX_EOR_TIME; LABEL_RANGE ] →
            kw !! k = None)
    ∧ (∀ k v, k ∉ [ LOCAL_AS; ROUTER_ID; BGP_SERVER_PORT;
                     REFRESH_STALEPATH_TIME; REFRESH_MAX_EOR_TIME; LABEL_RANGE ] →
         ∃ rest',
           trace (_start_speaker (VDict (<[k := v]> d)) st).2
           = trace st ++ LogDebug "Starting BGPSpeaker..." []
               :: Construct kw o :: rest').
Proof.
  destruct (start_speaker_constructs d st) as (rest & E & Q & _).
  eexists (bgp_settings_of d), _, rest. split; [exact E|]. split; [exact Q|].
  assert (Hdom : dom (bgp_settings_of d)
                 = {[ "as_number"; "router_id"; BGP_SERVER_PORT;
                      REFRESH_STALEPATH_TIME; REFRESH_MAX_EOR_TIME; LABEL_RANGE ]}).
  { unfold bgp_settings_of. rewrite !dom_insert_L, dom_empty_L. set_solver. }
  split; [exact Hdom|]. split.
  - intros k Hk. apply not_elem_of_dom. rewrite Hdom. set_solver.
  - intros k v Hk.
    destruct (start_speaker_constructs (<[k := v]> d) st) as (rest' & E' & _).
    exists rest'. rewrite E'.
    assert (bgp_settings_of (<[k := v]> d) = bgp_settings_of d) as ->; [|done].
    unfold bgp_settings_of. rewrite !lookup_insert_ne by set_solver. done.
Qed.

(** C3.  Each of the three loaders, run on a list of dictionaries while
    there is a speaker, goes through the list in order: it calls the
    speaker for an initial segment of the entries, one call per entry
    and in the order of the list (for routes, per entry that is a route,
    with the method of its kind); a call that raises a
    [RuntimeConfigError] is followed by the record of that exception and
    then by the calls for the later entries; a call that raises anything
    else is the last call, and the loader raises that exception; if no
    call does, every entry was attempted. *)
Theorem loaders_apply_in_order (ds : list kwargs) (st : state) (s : engine) :
  self_speaker st = Some s →
  (∃ new,
     trace (_add_neighbors (VList (VDict <$> ds)) st).2 = trace st ++ new
     ∧ applied_in_order ((λ d, (NeighborAdd, d)) <$> ds)
         (_add_neighbors (VList (VDict <$> ds)) st).1 new)
  ∧ (∃ new,
       trace (_add_vrfs (VList (VDict <$> ds)) st).2 = trace st ++ new
       ∧ applied_in_order ((λ d, (VrfAdd, d)) <$> ds)
           (_add_vrfs (VList (VDict <$> ds)) st).1 new)
  ∧ (∃ new,
       trace (_add_routes (VList (VDict <$> ds)) st).2 = trace st ++ new
       ∧ applied_in_order (omap route_attempt ds)
           (_add_routes (VList (VDict <$> ds)) st).1 new).
Proof.
  intros Hs.
  assert (Hmap : ∀ op : engine_op,
             (λ d : kwargs, (op, d)) <$> ds = omap (λ d, Some (op, d)) ds).
  { intros op. induction ds as [|d ds' IH]; [done|]. cbn. by rewrite IH. }
  split; [|split].
  - rewrite Hmap. unfold _add_neighbors. rewrite for_in_list.
    exact (for_each_applied _ _ neighbors_one_attempt ds st s Hs).
  - rewrite Hmap. unfold _add_vrfs. rewrite for_in_list.
    exact (for_each_applied _ _ vrfs_one_attempt ds st s Hs).
  - rewrite add_routes_each.
    exact (for_each_applied _ _ routes_one_attempt ds st s Hs).
Qed.

(** C4.  A route entry is handled the same wherever it stands in the
    list, and by its keys alone: with [prefix] it goes to [prefix_add],
    whether or not [route_type] is there too; without [prefix] but with
    [route_type] it goes to [evpn_prefix_add]; with neither it is
    skipped, leaving one debug record, no call, no exception, and the
    speaker as it was. *)
Theorem route_entry_dispatch (d : kwargs) (st : state) (s : engine) :
  self_speaker st = Some s →
  (∀ before after st0,
     _add_routes (VList (before ++ VDict d :: after)) st0
     = (_add_routes (VList before);;
        _add_routes (VList [VDict d]);;
        _add_routes (VList after)) st0)
  ∧ (is_Some (d !! "prefix") →
     trace (_add_routes (VList [VDict d]) st).2
     = trace st ++ LogDebug "Adding route settings: %s" [VDict d]
         :: attempt_events (PrefixAdd, d) (prefix_add d s).1)
  ∧ (d !! "prefix" = None → is_Some (d !! "route_type") →
     trace (_add_routes (VList [VDict d]) st).2
     = trace st ++ LogDebug "Adding route settings: %s" [VDict d]
         :: attempt_events (EvpnPrefixAdd, d) (evpn_prefix_add d s).1)
  ∧ (d !! "prefix" = None → d !! "route_type" = None →
     _add_routes (VList [VDict d]) st
     = (inr tt, State (self_config_file st) (Some s)
                  (trace st ++ [LogDebug "Skip invalid route settings: %s" [VDict d]]))).
Proof.
  intros Hs. split; [|split; [|split]].
  - intros before after st0. rewrite add_routes_app.
    unfold mbind, M_bind.
    destruct (_add_routes (VList before) st0) as [[e|[]] st1]; [done|].
    change (VDict d :: after) with ([VDict d] ++ after).
    by rewrite add_routes_app.
  - intros Hp. rewrite (add_routes_entry d st s Hs). unfold route_kind.
    rewrite bool_decide_eq_true_2 by done.
    rewrite (guarded_apply_method _ _ _ s) by by rewrite <- Hs.
    cbn [snd trace]. by rewrite <- (assoc_L (++)).
  - intros Hp Hr. rewrite (add_routes_entry d st s Hs). unfold route_kind.
    rewrite bool_decide_eq_false_2 by (rewrite Hp; by intros [? ?]).
    rewrite bool_decide_eq_true_2 by done.
    rewrite (guarded_apply_method _ _ _ s) by by rewrite <- Hs.
    cbn [snd trace]. by rewrite <- (assoc_L (++)).
  - intros Hp Hr. rewrite (add_routes_entry d st s Hs). unfold route_kind.
    rewrite !bool_decide_eq_false_2 by (rewrite ?Hp, ?Hr; by intros [? ?]).
    by rewrite Hs.
Qed.

(** C2, as the code has it.  When the settings have loaded with a BGP
    section and [_start_speaker] raises on it, whatever it raises,
    [start] raises the same exception and ends in the state
    [_start_speaker] left: nothing catches the exception, and neither the
    shell nor the control channel is launched. *)
Theorem bootstrap_failure_aborts_start (CONF : conf) (st : state) (p : string)
    (m : pymodule) (bgp : pyval) (e : exn) :
  self_config_file st = Some p → p ≠ "" → isfile p = true →
  load_source settings_module p = inr m → m !! "BGP" = Some bgp →
  (_start_speaker bgp (before_bootstrap st p m)).1 = inl e →
  start CONF st = (inl e, (_start_speaker bgp (before_bootstrap st p m)).2)
  ∧ (∃ new,
       trace (start CONF st).2 = trace st ++ new
       ∧ (Shell ∉ steps new) ∧ (Control ∉ steps new)).
Proof.
  intros Hcf Hne Hfile Hload Hbgp Hrun. split.
  - by apply start_bootstrap_raises.
  - destruct (start_takes_plan CONF st) as (new & E & _ & _).
    exists new. split; [exact E|].
    rewrite (start_bootstrap_raises CONF st p m bgp e) in E by done.
    destruct (takes_start_speaker bgp (before_bootstrap st p m))
      as (new' & E' & P' & _).
    cbn [snd] in E. rewrite E' in E. unfold before_bootstrap in E. cbn [trace] in E.
    rewrite <- !(assoc_L (++)) in E. apply app_inv_head in E. subst new.
    rewrite !steps_app. change (steps [_; _; _]) with [Load].
    assert (steps (if bool_decide (is_Some (m !! "LOGGING"))
                   then [LogDebug "Loading LOGGING settings... (NOT implemented yet)" []]
                   else []) = []) as -> by (by destruct (bool_decide _)).
    change (steps [LogDebug _ _]) with (@nil step). cbn [app].
    destruct P' as [k Hk].
    assert (∀ x, x ∈ steps new' → x = Bootstrap) as Hin.
    { intros x Hx. assert (x ∈ [Bootstrap]) by (rewrite Hk; set_solver). set_solver. }
    split; intros Hx; apply elem_of_cons in Hx as [?|Hx]; try done;
      by apply Hin in Hx.
Qed.

(** C7, as the code has it.  [start] takes its steps in the order of its
    plan: loading, if a configuration file is set; bootstrap, if the
    loaded settings have a BGP section; the shell, if they have an SSH
    section; the control channel.  The steps taken are an initial segment
    of the plan, and the whole plan when [start] returns.  With neither
    section, a configuration that is unset or loads, and a valid bind
    address, [start] returns the handle of the control channel, launched
    once, as the last step.  With an invalid bind address, whatever the
    configuration, [start] raises and the control channel is not
    launched; with neither section and a configuration that is unset or
    loads, the exception is the one [validate_rpc_host] raises, before
    the launch. *)
Theorem start_follows_plan (CONF : conf) (st : state) :
  ∃ new,
    trace (start CONF st).2 = trace st ++ new
    ∧ steps new `prefix_of` plan (self_config_file st)
    ∧ (outcome (start CONF st).1 = None → steps new = plan (self_config_file st))
    ∧ (loads (self_config_file st) →
       document (self_config_file st) !! "BGP" = None →
       document (self_config_file st) !! "SSH" = None →
       is_valid_ipv4 (rpc_host CONF) = true ∨ is_valid_ipv6 (rpc_host CONF) = true →
       (start CONF st).1 = inr (Task NET_CONTROLLER_start (rpc_settings CONF))
       ∧ steps new
         = (if py_bool (self_config_file st) then [Load] else []) ++ [Control])
    ∧ (is_valid_ipv4 (rpc_host CONF) = false →
       is_valid_ipv6 (rpc_host CONF) = false →
       (∃ e, (start CONF st).1 = inl e)
       ∧ (Control ∉ steps new)
       ∧ (loads (self_config_file st) →
          document (self_config_file st) !! "BGP" = None →
          document (self_config_file st) !! "SSH" = None →
          (start CONF st).1
          = inl (ApplicationException
                   ("Invalid RPC ip address: " +:+ rpc_host CONF))
          ∧ steps new = (if py_bool (self_config_file st) then [Load] else []))).
Proof.
  destruct (start_takes_plan CONF st) as (new & E & P & F).
  exists new. split; [exact E|]. split; [exact P|]. split; [exact F|]. split.
  - intros Hl Hb Hs Hv. pose proof (start_bare_returns CONF st Hl Hb Hs Hv) as Hr.
    split; [exact Hr|]. rewrite F by by rewrite Hr.
    unfold plan. rewrite Hb, Hs.
    by rewrite !bool_decide_eq_false_2 by by intros [? ?].
  - intros H4 H6.
    destruct (start_invalid_host CONF st H4 H6) as (e & new' & Hr & E' & Hc & Hbare).
    rewrite E in E'. apply app_inv_head in E' as <-.
    split; [by exists e|]. split; [exact Hc|].
    intros Hl Hb Hs. destruct (Hbare Hl Hb Hs) as [-> Hsteps]. by split.
Qed.
End Claims.

(** * The statements on the sample environment *)

Section Exercises.
#[local] Existing Instance Sample.base.
#[local] Existing Instance Sample.names.
#[local] Existing Instance Sample.addresses.
#[local] Existing Instance Sample.files.
#[local] Existing Instance Sample.recorder.

(** Three neighbors, the second rejected: all three are attempted in
    order, one exception is logged, and the speaker holds the first and
    the third. *)
Example neighbors_valid_malformed_valid :
  _add_neighbors
    (VList [VDict Sample.valid1; VDict Sample.malformed; VDict Sample.valid2]) Sample.fresh
  = (inr tt,
     State None
       (Some [(NeighborAdd, Sample.valid1); (NeighborAdd, Sample.valid2)])
       [LogDebug "Adding neighbor settings: %s" [VDict Sample.valid1];
        Call NeighborAdd Sample.valid1 None;
        LogDebug "Adding neighbor settings: %s" [VDict Sample.malformed];
        Call NeighborAdd Sample.malformed
          (Some (Sample.RuntimeConfigError "address is required"));
        LogException (Sample.RuntimeConfigError "address is required");
        LogDebug "Adding neighbor settings: %s" [VDict Sample.valid2];
        Call NeighborAdd Sample.valid2 None]).
Proof. vm_compute. reflexivity. Qed.

(** An exception that is not a [RuntimeConfigError] ends the loop: the
    third neighbor is not attempted. *)
Example neighbors_valid_crashing_valid :
  _add_neighbors
    (VList [VDict Sample.valid1; VDict Sample.crashing; VDict Sample.valid2]) Sample.fresh
  = (inl (TypeError "address must be a string"),
     State None
       (Some [(NeighborAdd, Sample.valid1)])
       [LogDebug "Adding neighbor settings: %s" [VDict Sample.valid1];
        Call NeighborAdd Sample.valid1 None;
        LogDebug "Adding neighbor settings: %s" [VDict Sample.crashing];
        Call NeighborAdd Sample.crashing
          (Some (TypeError "address must be a string"))]).
Proof. vm_compute. reflexivity. Qed.

(** A prefix route, an EVPN route, an entry with both keys and an empty
    entry. *)
Example routes_by_kind :
  actions
    (trace
       (_add_routes
          (VList [VDict Sample.prefix_route; VDict Sample.evpn_route;
                  VDict Sample.both_route; VDict ∅]) Sample.fresh).2)
  = [Call PrefixAdd Sample.prefix_route None;
     Call EvpnPrefixAdd Sample.evpn_route None;
     Call PrefixAdd Sample.both_route None].
Proof. vm_compute. reflexivity. Qed.

(** A start on the full configuration. *)
Example start_full_configuration :
  let CONF := Conf (Some "/etc/ryu/bgp.py") "192.0.2.1" 50002 in
  (start CONF (__init__ CONF)).1
  = inr (Task NET_CONTROLLER_start
           (<["bind_ip" := VStr "192.0.2.1"]> {["bind_port" := VInt 50002]}))
  ∧ steps (trace (start CONF (__init__ CONF)).2) = [Load; Bootstrap; Control]
  ∧ self_speaker (start CONF (__init__ CONF)).2
    = Some [(NeighborAdd, Sample.valid1); (NeighborAdd, Sample.valid2);
            (PrefixAdd, Sample.prefix_route); (EvpnPrefixAdd, Sample.evpn_route)].
Proof. vm_compute. done. Qed.

(** On the section without [as_number] the constructor is called, with
    [None] for it, and [_start_speaker] returns. *)
Example start_speaker_no_as_number :
  _start_speaker (VDict Sample.no_as_number) (State None None [])
  = (inr tt,
     State None (Some [])
       [LogDebug "Starting BGPSpeaker..." [];
        Construct
          (<["as_number" := VNone]>
             (<["router_id" := VStr "10.0.0.1"]>
                (<["server_port" := VInt 179]>
                   (<["refresh_stalepath_time" := VInt 0]>
                      (<["refresh_max_eor_time" := VInt 0]>
                         {["label_range" := VTuple [VInt 100; VInt 100000]]})))))
          None;
        LogDebug "Adding neighbors..." [];
        LogDebug "Adding VRFs..." [];
        LogDebug "Adding routes..." []]).
Proof. vm_compute. reflexivity. Qed.

(** C5, as stated, fails: a settings file that exits raises [SystemExit]
    out of [load_config], not an [ApplicationException]. *)
Lemma load_config_system_exit_escapes :
  isfile "/etc/ryu/exit.py" = true
  ∧ load_source settings_module "/etc/ryu/exit.py" = inl (Sample.SystemExit "1")
  ∧ (load_config (Some "/etc/ryu/exit.py") Sample.fresh).1 = inl (Sample.SystemExit "1")
  ∧ isinstance (Sample.SystemExit "1") "ApplicationException" = false.
Proof. vm_compute. done. Qed.

(** C7, as stated, fails: with settings that have neither section, an
    invalid bind address makes [start] raise before the launch, and the
    control channel is launched not once but never. *)
Lemma start_invalid_host_never_launches :
  let CONF := Conf (Some "/etc/ryu/bare.py") "not-an-ip" 50002 in
  document (Some "/etc/ryu/bare.py") !! "BGP" = None
  ∧ document (Some "/etc/ryu/bare.py") !! "SSH" = None
  ∧ (start CONF (__init__ CONF)).1
    = inl (ApplicationException "Invalid RPC ip address: not-an-ip")
  ∧ steps (trace (start CONF (__init__ CONF)).2) = [Load].
Proof. vm_compute. done. Qed.
End Exercises.

Section Witnesses.
#[local] Existing Instance Sample.base.
#[local] Existing Instance Sample.names.
#[local] Existing Instance Sample.addresses.
#[local] Existing Instance Sample.files.
#[local] Existing Instance Sample.recorder.

(** C6 on the two documentation addresses and on a word. *)
Lemma validate_rpc_host_witness :
  validate_rpc_host "192.0.2.1" = inr "192.0.2.1"
  ∧ validate_rpc_host "2001:db8::1" = inr "2001:db8::1"
  ∧ validate_rpc_host "not-an-ip"
    = inl (ApplicationException "Invalid RPC ip address: not-an-ip").
Proof.
  split; [|split].
  - apply (proj1 (validate_rpc_host_spec "192.0.2.1")). left. reflexivity.
  - apply (proj1 (validate_rpc_host_spec "2001:db8::1")). right. reflexivity.
  - apply (proj1 (proj2 (validate_rpc_host_spec "not-an-ip"))); reflexivity.
Defined.

(** C5 on an empty path, a missing file, a file that does not parse and a
    file that loads. *)
Lemma load_config_witness :
  load_config (Some "") Sample.fresh
  = (inl (ApplicationException "Invalid configuration file: "), Sample.fresh)
  ∧ load_config (Some "/no/such/file") Sample.fresh
    = (inl (ApplicationException "Invalid configuration file: /no/such/file"), Sample.fresh)
  ∧ (load_config (Some "/etc/ryu/broken.py") Sample.fresh).1
    = inl (ApplicationException "invalid syntax")
  ∧ (load_config (Some "/etc/ryu/bare.py") Sample.fresh).1 = inr ∅.
Proof.
  split; [|split; [|split]].
  - apply (proj1 (load_config_spec (Some "") Sample.fresh)). left. reflexivity.
  - apply (proj1 (load_config_spec (Some "/no/such/file") Sample.fresh)).
    right. exists "/no/such/file". split; reflexivity.
  - rewrite (proj2 (load_config_spec (Some "/etc/ryu/broken.py") Sample.fresh)
               "/etc/ryu/broken.py") by first [reflexivity | discriminate].
    reflexivity.
  - rewrite (proj2 (load_config_spec (Some "/etc/ryu/bare.py") Sample.fresh)
               "/etc/ryu/bare.py") by first [reflexivity | discriminate].
    reflexivity.
Defined.

(** C9 on an invalid address, a file that does not parse, and a [KeyError]
    in the required settings. *)
Lemma one_exception_class_witness :
  (∃ desc, ApplicationException "Invalid RPC ip address: not-an-ip"
           = ApplicationException desc)
  ∧ ((∃ desc, ApplicationException "invalid syntax" = ApplicationException desc)
     ∨ (isinstance (ApplicationException "invalid syntax") "Exception" = false
        ∧ ∃ p, load_source settings_module p
               = inl (ApplicationException "invalid syntax")))
  ∧ (∃ desc,
       try_except
         (raise (A:=kwargs)
            (Exn ["KeyError"; "LookupError"; "Exception"; "BaseException"]
               "'as_number'"))
         "KeyError" required_missing Sample.fresh
       = (inl (ApplicationException desc), Sample.fresh)).
Proof.
  destruct one_exception_class as (_ & Hhost & Hload & Hkey).
  split; [|split].
  - apply (Hhost "not-an-ip"). reflexivity.
  - apply (Hload (Some "/etc/ryu/broken.py") Sample.fresh). reflexivity.
  - apply (Hkey _ Sample.fresh Sample.fresh (Exn ["KeyError"; "LookupError"; "Exception"; "BaseException"]
                                 "'as_number'")); reflexivity.
Defined.

(** C8 on a section that sets the port and leaves the other three to
    their defaults. *)
Lemma optional_settings_resolved_witness :
  ∃ kw o rest,
    trace (_start_speaker (VDict Sample.full_section) Sample.fresh).2
    = trace Sample.fresh ++ LogDebug "Starting BGPSpeaker..." [] :: Construct kw o :: rest
    ∧ kw !! "server_port" = Some (VInt 1790)
    ∧ kw !! "refresh_stalepath_time" = Some (VInt 0)
    ∧ kw !! "refresh_max_eor_time" = Some (VInt 0)
    ∧ kw !! "label_range" = Some (VTuple [VInt 100; VInt 100000]).
Proof.
  destruct (optional_settings_resolved Sample.full_section Sample.fresh)
    as (kw & o & rest & E & P1 & P2 & P3 & P4).
  { apply (bool_decide_unpack _). reflexivity. }
  exists kw, o, rest.
  split; [exact E|]. split; [exact P1|]. split; [exact P2|].
  split; [exact P3|exact P4].
Defined.

(** C10 on the same section: its neighbors and routes stay out of the
    constructor call, and changing its neighbors leaves the call as it was. *)
Lemma constructor_arguments_witness :
  ∃ kw o rest,
    trace (_start_speaker (VDict Sample.full_section) Sample.fresh).2
    = trace Sample.fresh ++ LogDebug "Starting BGPSpeaker..." [] :: Construct kw o :: rest
    ∧ steps rest = []
    ∧ dom kw = {[ "as_number"; "router_id"; "server_port"; "refresh_stalepath_time";
                  "refresh_max_eor_time"; "label_range" ]}
    ∧ kw !! "neighbors" = None
    ∧ kw !! "routes" = None
    ∧ (∃ rest',
         trace (_start_speaker
                  (VDict (<["neighbors" := VList []]> Sample.full_section)) Sample.fresh).2
         = trace Sample.fresh ++ LogDebug "Starting BGPSpeaker..." []
             :: Construct kw o :: rest').
Proof.
  destruct (constructor_arguments Sample.full_section Sample.fresh)
    as (kw & o & rest & E & Q & D & N & U).
  exists kw, o, rest. split; [exact E|]. split; [exact Q|]. split; [exact D|].
  split; [|split].
  - apply N. apply (bool_decide_unpack _). reflexivity.
  - apply N. apply (bool_decide_unpack _). reflexivity.
  - apply U. apply (bool_decide_unpack _). reflexivity.
Defined.

(** C3 on three entries, the second rejected. *)
Lemma loaders_apply_in_order_witness :
  let ds := [Sample.valid1; Sample.malformed; Sample.valid2] in
  self_speaker Sample.fresh = Some []
  ∧ (∃ new,
       trace (_add_neighbors (VList (VDict <$> ds)) Sample.fresh).2 = trace Sample.fresh ++ new
       ∧ applied_in_order ((λ d, (NeighborAdd, d)) <$> ds)
           (_add_neighbors (VList (VDict <$> ds)) Sample.fresh).1 new)
  ∧ (∃ new,
       trace (_add_vrfs (VList (VDict <$> ds)) Sample.fresh).2 = trace Sample.fresh ++ new
       ∧ applied_in_order ((λ d, (VrfAdd, d)) <$> ds)
           (_add_vrfs (VList (VDict <$> ds)) Sample.fresh).1 new)
  ∧ (∃ new,
       trace (_add_routes (VList (VDict <$> ds)) Sample.fresh).2 = trace Sample.fresh ++ new
       ∧ applied_in_order (omap route_attempt ds)
           (_add_routes (VList (VDict <$> ds)) Sample.fresh).1 new).
Proof.
  split; [reflexivity|].
  exact (loaders_apply_in_order
           [Sample.valid1; Sample.malformed; Sample.valid2] Sample.fresh [] eq_refl).
Defined.

(** C4 on an entry with both keys, an EVPN entry and an empty entry. *)
Lemma route_entry_dispatch_witness :
  trace (_add_routes (VList [VDict Sample.both_route]) Sample.fresh).2
  = [LogDebug "Adding route settings: %s" [VDict Sample.both_route];
     Call PrefixAdd Sample.both_route None]
  ∧ trace (_add_routes (VList [VDict Sample.evpn_route]) Sample.fresh).2
    = [LogDebug "Adding route settings: %s" [VDict Sample.evpn_route];
       Call EvpnPrefixAdd Sample.evpn_route None]
  ∧ _add_routes (VList [VDict ∅]) Sample.fresh
    = (inr tt, State None (Some [])
                 [LogDebug "Skip invalid route settings: %s" [VDict ∅]]).
Proof.
  split; [|split].
  - apply (proj1 (proj2 (route_entry_dispatch Sample.both_route Sample.fresh [] eq_refl))).
    apply (bool_decide_unpack _). reflexivity.
  - apply (proj1 (proj2 (proj2
             (route_entry_dispatch Sample.evpn_route Sample.fresh [] eq_refl)))).
    + reflexivity.
    + apply (bool_decide_unpack _). reflexivity.
  - apply (proj2 (proj2 (proj2 (route_entry_dispatch ∅ Sample.fresh [] eq_refl))));
      reflexivity.
Defined.

(** C7 on settings with neither section, with a valid bind address and
    with an invalid one. *)
Lemma start_follows_plan_witness :
  let CONF := Conf (Some "/etc/ryu/bare.py") "192.0.2.1" 50002 in
  let CONF' := Conf (Some "/etc/ryu/bare.py") "not-an-ip" 50002 in
  (∃ new,
     trace (start CONF (__init__ CONF)).2 = trace (__init__ CONF) ++ new
     ∧ (start CONF (__init__ CONF)).1
       = inr (Task NET_CONTROLLER_start (rpc_settings CONF))
     ∧ steps new = [Load; Control])
  ∧ (∃ new,
       trace (start CONF' (__init__ CONF')).2 = trace (__init__ CONF') ++ new
       ∧ (start CONF' (__init__ CONF')).1
         = inl (ApplicationException "Invalid RPC ip address: not-an-ip")
       ∧ (Control ∉ steps new)
       ∧ steps new = [Load]).
Proof.
  intros CONF CONF'. split.
  - destruct (start_follows_plan CONF (__init__ CONF)) as (new & E & _ & _ & B & _).
    exists new. split; [exact E|]. apply B.
    + right. exists "/etc/ryu/bare.py", ∅. repeat split; reflexivity.
    + reflexivity.
    + reflexivity.
    + left. reflexivity.
  - destruct (start_follows_plan CONF' (__init__ CONF'))
      as (new & E & _ & _ & _ & B).
    destruct (B eq_refl eq_refl) as (_ & Hc & Hbare).
    exists new. split; [exact E|].
    destruct Hbare as [Hr Hsteps].
    + right. exists "/etc/ryu/bare.py", ∅. repeat split; reflexivity.
    + reflexivity.
    + reflexivity.
    + split; [exact Hr|]. split; [exact Hc|exact Hsteps].
Defined.
End Witnesses.

Section StrictSpeaker.
#[local] Existing Instance Sample.base.
#[local] Existing Instance Sample.names.
#[local] Existing Instance Sample.addresses.
#[local] Existing Instance Sample.files.
#[local] Existing Instance Sample.strict.

(** C2, as stated, fails: with a speaker whose constructor raises the
    application's exception for the missing [as_number], [_start_speaker]
    raises it, and [start] raises it in turn, having launched nothing. *)
Lemma start_does_not_catch_bootstrap_error :
  let CONF := Conf (Some "/etc/ryu/partial.py") "192.0.2.1" 50002 in
  let settings : pymodule := {["BGP" := VDict Sample.no_as_number]} in
  let e := ApplicationException "as_number is required" in
  load_source settings_module "/etc/ryu/partial.py" = inr settings
  ∧ (_start_speaker (VDict Sample.no_as_number)
       (before_bootstrap (__init__ CONF) "/etc/ryu/partial.py" settings)).1 = inl e
  ∧ (start CONF (__init__ CONF)).1 = inl e
  ∧ steps (trace (start CONF (__init__ CONF)).2) = [Load; Bootstrap].
Proof. vm_compute. done. Qed.

(** C2 on the same start: the exception of the bootstrap is the exception
    of [start]. *)
Lemma bootstrap_failure_aborts_start_witness :
  let CONF := Conf (Some "/etc/ryu/partial.py") "192.0.2.1" 50002 in
  let settings : pymodule := {["BGP" := VDict Sample.no_as_number]} in
  let e := ApplicationException "as_number is required" in
  start CONF (__init__ CONF)
  = (inl e,
     (_start_speaker (VDict Sample.no_as_number)
        (before_bootstrap (__init__ CONF) "/etc/ryu/partial.py" settings)).2)
  ∧ (∃ new,
       trace (start CONF (__init__ CONF)).2 = trace (__init__ CONF) ++ new
       ∧ (Shell ∉ steps new) ∧ (Control ∉ steps new)).
Proof.
  intros CONF settings e.
  apply (bootstrap_failure_aborts_start CONF (__init__ CONF) "/etc/ryu/partial.py"
           settings (VDict Sample.no_as_number) e);
    [reflexivity|discriminate|reflexivity|reflexivity|reflexivity|reflexivity].
Defined.
End StrictSpeaker.

(** * Further lemmas and properties *)

Section Preservation.
Context `{BgpBase, RtConf, Validation, Host, Engine}.
Context (I : state → Prop).

Lemma preserves_ret {A} (x : A) : preserves I (mret x).
Proof. by intros st. Qed.

Lemma preserves_lift {A} (r : exn + A) : preserves I (lift r).
Proof. by intros st. Qed.

Lemma preserves_raise {A} (e : exn) : preserves I (raise (A:=A) e).
Proof. by intros st. Qed.

Lemma preserves_bind {A B} (m : M A) (f : A → M B) :
  preserves I m → (∀ x, preserves I (f x)) → preserves I (m ≫= f).
Proof.
  intros Hm Hf st HI. specialize (Hm st HI). rewrite bind_run.
  destruct (m st) as [[e|x] st1]; [done|]. by apply Hf.
Qed.

Lemma preserves_bind_post {A B} (m : M A) (f : A → M B) (Q : A → Prop) :
  preserves I m → (∀ st x, (m st).1 = inr x → Q x) →
  (∀ x, Q x → preserves I (f x)) → preserves I (m ≫= f).
Proof.
  intros Hm HQ Hf st HI. specialize (Hm st HI). specialize (HQ st).
  rewrite bind_run. destruct (m st) as [[e|x] st1]; [done|].
  apply Hf; [by apply HQ|done].
Qed.

Lemma preserves_try_except {A} (body : M A) (cls : string) (handler : exn → M A) :
  preserves I body → (∀ e, preserves I (handler e)) →
  preserves I (try_except body cls handler).
Proof.
  intros Hm Hh st HI. specialize (Hm st HI). unfold try_except.
  destruct (body st) as [[e|x] st1]; [|done].
  destruct (isinstance e cls); [by apply Hh|done].
Qed.

Lemma preserves_for_each (items : list pyval) (body : pyval → M unit) :
  (∀ x, preserves I (body x)) → preserves I (for_each items body).
Proof.
  intros Hb. induction items as [|x items IH]; cbn [for_each].
  - apply preserves_ret.
  - apply preserves_bind; auto.
Qed.

Lemma preserves_for_in (v : pyval) (body : pyval → M unit) :
  (∀ x, preserves I (body x)) → preserves I (for_in v body).
Proof.
  intros Hb. apply preserves_bind; [apply preserves_lift|].
  intros items. by apply preserves_for_each.
Qed.

Lemma preserves_speaker_attr (op : engine_op) : preserves I (speaker_attr op).
Proof. intros st HI. unfold speaker_attr. by destruct (self_speaker st). Qed.

Lemma preserves_apply_method (op : engine_op) (v : pyval) :
  (∀ kw, preserves I (invoke op kw)) → preserves I (apply_method op v).
Proof. intros Hi. apply preserves_bind; [apply preserves_lift|done]. Qed.

Lemma preserves_guarded (call : M unit) :
  (∀ e, preserves I (log_exception e)) → preserves I call →
  preserves I (guarded call).
Proof. intros He Hc. by apply preserves_try_except. Qed.

Lemma preserves_method (op : engine_op) {A} (f : engine_op → M A) :
  preserves I (f op) → preserves I (m ← speaker_attr op; f m).
Proof.
  intros Hf st HI. rewrite bind_run. unfold speaker_attr.
  destruct (self_speaker st); [by apply Hf|done].
Qed.

Hypothesis Hdebug : ∀ fmt args, preserves I (log_debug fmt args).
Hypothesis Hexception : ∀ e, preserves I (log_exception e).

Lemma preserves_add_neighbors (v : pyval) :
  (∀ kw, preserves I (invoke NeighborAdd kw)) → preserves I (_add_neighbors v).
Proof.
  intros Hi. apply preserves_for_in. intros x.
  apply preserves_bind; [apply Hdebug|]. intros _.
  apply preserves_guarded; [done|].
  by apply preserves_method, preserves_apply_method.
Qed.

Lemma preserves_add_vrfs (v : pyval) :
  (∀ kw, preserves I (invoke VrfAdd kw)) → preserves I (_add_vrfs v).
Proof.
  intros Hi. apply preserves_for_in. intros x.
  apply preserves_bind; [apply Hdebug|]. intros _.
  apply preserves_guarded; [done|].
  by apply preserves_method, preserves_apply_method.
Qed.

Lemma preserves_add_routes (v : pyval) :
  (∀ kw, preserves I (invoke PrefixAdd kw)) →
  (∀ kw, preserves I (invoke EvpnPrefixAdd kw)) →
  preserves I (_add_routes v).
Proof.
  intros Hp He. apply preserves_for_in. intros x.
  apply preserves_bind; [apply preserves_lift|]. intros has_prefix.
  apply (preserves_bind_post _ _
           (λ sel, sel = Some PrefixAdd ∨ sel = Some EvpnPrefixAdd ∨ sel = None)).
  - destruct has_prefix.
    + apply preserves_method, preserves_ret.
    + apply preserves_bind; [apply preserves_lift|]. intros [|].
      * apply preserves_method, preserves_ret.
      * apply preserves_ret.
  - intros st sel. destruct has_prefix.
    + run. unfold speaker_attr. destruct (self_speaker st); [|done].
      intros [= <-]. by left.
    + run. destruct (py_contains "route_type" x) as [e|[|]]; [done| |].
      * unfold speaker_attr. destruct (self_speaker st); [|done].
        intros [= <-]. right. by left.
      * intros [= <-]. right. by right.
  - intros sel [-> | [-> | ->]]; [| |apply Hdebug].
    + apply preserves_bind; [apply Hdebug|]. intros _.
      by apply preserves_guarded, preserves_apply_method.
    + apply preserves_bind; [apply Hdebug|]. intros _.
      by apply preserves_guarded, preserves_apply_method.
Qed.
End Preservation.

Section Invariants.
Context `{BgpBase, RtConf, Validation, Host, Engine}.

Lemma preserves_and (I J : state → Prop) {A} (m : M A) :
  preserves I m → preserves J m → preserves (λ st, I st ∧ J st) m.
Proof. intros HI HJ st [? ?]. split; auto. Qed.

(** What a computation that keeps every [appended] appends. *)
Lemma preserves_appends (P : event → Prop) {A} (m : M A) :
  (∀ t0, preserves (appended t0 P) m) →
  ∀ st, ∃ new, trace (m st).2 = trace st ++ new ∧ Forall P new.
Proof.
  intros Hm st. apply (Hm (trace st) st). exists []. by rewrite app_nil_r.
Qed.

Lemma appended_emit (t0 : list event) (P : event → Prop) (ev : event) :
  P ev → preserves (appended t0 P) (emit ev).
Proof.
  intros Hev st (new & E & HP). exists (new ++ [ev]). cbn. rewrite E.
  split; [by rewrite (assoc_L (++))|]. apply Forall_app. by split; [|constructor].
Qed.

Lemma appended_invoke (t0 : list event) (P : event → Prop) (op : engine_op)
    (kw : kwargs) :
  (∀ o, P (Call op kw o)) → preserves (appended t0 P) (invoke op kw).
Proof.
  intros Hev st (new & E & HP). unfold invoke.
  destruct (self_speaker st) as [s|]; [|by exists new].
  destruct (method op kw s) as [o s'].
  assert (appended t0 P (State (self_config_file st) (Some s')
                           (trace st ++ [Call op kw o]))).
  { exists (new ++ [Call op kw o]). cbn. rewrite E.
    split; [by rewrite (assoc_L (++))|]. apply Forall_app. by split; [|constructor]. }
  by destruct o.
Qed.

Lemma appended_construct (t0 : list event) (P : event → Prop) (kw : kwargs) :
  (∀ o, P (Construct kw o)) → preserves (appended t0 P) (construct kw).
Proof.
  intros Hev st (new & E & HP). unfold construct.
  destruct (BGPSpeaker kw) as [e|s]; eexists (new ++ [_]); cbn; rewrite E;
    (split; [by rewrite (assoc_L (++))|]); apply Forall_app; by split; [|constructor].
Qed.

Lemma has_speaker_emit (ev : event) : preserves has_speaker (emit ev).
Proof. by intros st. Qed.

Lemma has_speaker_invoke (op : engine_op) (kw : kwargs) :
  preserves has_speaker (invoke op kw).
Proof.
  intros st Hs. unfold invoke, has_speaker in *.
  destruct (self_speaker st) as [s|]; [|done].
  by destruct (method op kw s) as [[e|] s'].
Qed.

Lemma has_speaker_load_lists (d : kwargs) : preserves has_speaker (load_lists d).
Proof.
  assert (∀ fmt args, preserves has_speaker (log_debug fmt args))
    by (intros; apply has_speaker_emit).
  assert (∀ e, preserves has_speaker (log_exception e))
    by (intros; apply has_speaker_emit).
  pose proof has_speaker_invoke.
  unfold load_lists.
  apply preserves_bind; [done|]. intros _.
  apply preserves_bind; [by apply preserves_add_neighbors|]. intros _.
  apply preserves_bind; [done|]. intros _.
  apply preserves_bind; [by apply preserves_add_vrfs|]. intros _.
  apply preserves_bind; [done|]. intros _.
  by apply preserves_add_routes.
Qed.

(** The events of each loader. *)
Lemma add_neighbors_events (v : pyval) (st : state) :
  ∃ new, trace (_add_neighbors v st).2 = trace st ++ new
         ∧ Forall (loader_event [NeighborAdd]) new.
Proof.
  apply preserves_appends. intros t0. apply preserves_add_neighbors.
  - intros fmt args. by apply appended_emit.
  - intros e. by apply appended_emit.
  - intros kw. apply appended_invoke. intros o. cbn. set_solver.
Qed.

Lemma add_vrfs_events (v : pyval) (st : state) :
  ∃ new, trace (_add_vrfs v st).2 = trace st ++ new
         ∧ Forall (loader_event [VrfAdd]) new.
Proof.
  apply preserves_appends. intros t0. apply preserves_add_vrfs.
  - intros fmt args. by apply appended_emit.
  - intros e. by apply appended_emit.
  - intros kw. apply appended_invoke. intros o. cbn. set_solver.
Qed.

Lemma add_routes_events (v : pyval) (st : state) :
  ∃ new, trace (_add_routes v st).2 = trace st ++ new
         ∧ Forall (loader_event [PrefixAdd; EvpnPrefixAdd]) new.
Proof.
  apply preserves_appends. intros t0. apply preserves_add_routes.
  - intros fmt args. by apply appended_emit.
  - intros e. by apply appended_emit.
  - intros kw. apply appended_invoke. intros o. cbn. set_solver.
  - intros kw. apply appended_invoke. intros o. cbn. set_solver.
Qed.

(** The events of the three loaders in a row, in three groups. *)
Lemma load_lists_events (d : kwargs) (st : state) :
  ∃ ns vs rs,
    trace (load_lists d st).2 = trace st ++ ns ++ vs ++ rs
    ∧ Forall (loader_event [NeighborAdd]) ns
    ∧ Forall (loader_event [VrfAdd]) vs
    ∧ Forall (loader_event [PrefixAdd; EvpnPrefixAdd]) rs.
Proof.
  unfold load_lists. rewrite bind_run. unfold log_debug at 1, emit at 1.
  rewrite bind_run.
  match goal with |- context [_add_neighbors ?v ?st1] =>
    destruct (add_neighbors_events v st1) as (ns & En & Hn);
    destruct (_add_neighbors v st1) as [[e|[]] st2] end; cbn [snd trace] in *.
  { exists (LogDebug "Adding neighbors..." [] :: ns), [], [].
    rewrite En, !app_nil_r, <- (assoc_L (++)). repeat split; auto.
    by constructor. }
  rewrite bind_run. unfold log_debug at 1, emit at 1. rewrite bind_run.
  match goal with |- context [_add_vrfs ?v ?st1] =>
    destruct (add_vrfs_events v st1) as (vs & Ev & Hv);
    destruct (_add_vrfs v st1) as [[e|[]] st3] end; cbn [snd trace] in *.
  { exists (LogDebug "Adding neighbors..." [] :: ns),
      (LogDebug "Adding VRFs..." [] :: vs), [].
    rewrite Ev, En, !app_nil_r, <- !(assoc_L (++)). repeat split; auto;
      by constructor. }
  rewrite bind_run. unfold log_debug at 1, emit at 1.
  match goal with |- context [_add_routes ?v ?st1] =>
    destruct (add_routes_events v st1) as (rs & Er & Hr) end.
  cbn [trace] in Er.
  exists (LogDebug "Adding neighbors..." [] :: ns),
    (LogDebug "Adding VRFs..." [] :: vs), (LogDebug "Adding routes..." [] :: rs).
  rewrite Er, Ev, En, <- !(assoc_L (++)). repeat split; auto; by constructor.
Qed.
End Invariants.

Section Further.
Context `{BgpBase, RtConf, Validation, Host, Engine}.





End Further.

Section StartFacts.
Context `{BgpBase, RtConf, Validation, Host, Engine}.

Lemma validate_rpc_host_inr (ip ip' : string) :
  validate_rpc_host ip = inr ip' →
  ip' = ip ∧ (is_valid_ipv4 ip = true ∨ is_valid_ipv6 ip = true).
Proof.
  unfold validate_rpc_host.
  destruct (is_valid_ipv4 ip), (is_valid_ipv6 ip); cbn; intros [= <-]; auto.
Qed.

(** [launch_control], by the validity of the address. *)
Lemma launch_control_run (CONF : conf) (st : state) :
  launch_control CONF st
  = match validate_rpc_host (rpc_host CONF) with
    | inr _ =>
        (inr (Task NET_CONTROLLER_start (rpc_settings CONF)),
         State (self_config_file st) (self_speaker st)
           (trace st ++ [Spawn NET_CONTROLLER_start (rpc_settings CONF)]))
    | inl e => (inl e, st)
    end.
Proof.
  unfold launch_control. run.
  destruct (validate_rpc_host (rpc_host CONF)) as [e|ip] eqn:Hv; [done|].
  by apply validate_rpc_host_inr in Hv as [-> _].
Qed.

(** [start] on a path that is not a file. *)
Lemma start_not_a_file (CONF : conf) (st : state) (p : string) :
  self_config_file st = Some p → p ≠ "" → isfile p = false →
  start CONF st
  = (inl (ApplicationException ("Invalid configuration file: " +:+ p)),
     State (Some p) (self_speaker st)
       (trace st ++ [SuperStart; LogDebug "Loading config file %s..." [VStr p]])).
Proof.
  intros Hcf Hne Hfile. rewrite start_unfold. run. rewrite Hcf.
  destruct p as [|c p]; [done|]. cbn [py_bool py_of]. run.
  rewrite load_config_invalid by (right; eauto). run.
  by rewrite <- !(assoc_L (++)).
Qed.

(** [start] on a file that does not load. *)
Lemma start_load_raises (CONF : conf) (st : state) (p : string) (e : exn) :
  self_config_file st = Some p → p ≠ "" → isfile p = true →
  load_source settings_module p = inl e →
  start CONF st
  = (inl (if isinstance e "Exception" then ApplicationException (exn_msg e) else e),
     State (Some p) (self_speaker st)
       (trace st ++ [SuperStart; LogDebug "Loading config file %s..." [VStr p];
                     LoadSource settings_module p (Some e)])).
Proof.
  intros Hcf Hne Hfile Hload. rewrite start_unfold. run. rewrite Hcf.
  destruct p as [|c p]; [done|]. cbn [py_bool py_of]. run.
  rewrite load_config_file by done. rewrite Hload. run.
  by rewrite <- !(assoc_L (++)).
Qed.

(** The ways a start can go before the settings are acted on. *)
Lemma start_cases (st : state) :
  py_bool (self_config_file st) = false
  ∨ (∃ p, self_config_file st = Some p ∧ p ≠ "" ∧ isfile p = false)
  ∨ (∃ p e, self_config_file st = Some p ∧ p ≠ "" ∧ isfile p = true
            ∧ load_source settings_module p = inl e)
  ∨ (∃ p m, self_config_file st = Some p ∧ p ≠ "" ∧ isfile p = true
            ∧ load_source settings_module p = inr m).
Proof.
  destruct (py_bool (self_config_file st)) eqn:Hb; [|by left].
  destruct (self_config_file st) as [p|]; [|done].
  assert (p ≠ "") by (by intros ->).
  right. destruct (isfile p) eqn:Hfile; [|left; eauto].
  right. destruct (load_source settings_module p) as [e|m] eqn:Hload.
  - left. eauto 10.
  - right. eauto 10.
Qed.

(** [configure] only appends to the trace. *)
Lemma configure_appends (m : pymodule) (st : state) :
  ∃ new, trace (configure m st).2 = trace st ++ new.
Proof. destruct (takes_configure m st) as (new & E & _). eauto. Qed.
End StartFacts.

Section FurtherStart.
Context `{BgpBase, RtConf, Validation, Host, Engine}.



End FurtherStart.

Section WholeRun.
Context `{BgpBase, RtConf, Validation, Host, Engine}.
Context (I : state → Prop).
Hypothesis Hdebug : ∀ fmt args, preserves I (log_debug fmt args).
Hypothesis Hexception : ∀ e, preserves I (log_exception e).

Lemma preserves_load_lists (d : kwargs) :
  (∀ op kw, preserves I (invoke op kw)) → preserves I (load_lists d).
Proof.
  intros Hi. unfold load_lists.
  apply preserves_bind; [done|]. intros _.
  apply preserves_bind; [by apply preserves_add_neighbors|]. intros _.
  apply preserves_bind; [done|]. intros _.
  apply preserves_bind; [by apply preserves_add_vrfs|]. intros _.
  apply preserves_bind; [done|]. intros _.
  by apply preserves_add_routes.
Qed.

Lemma preserves_start_speaker (v : pyval) :
  (∀ op kw, preserves I (invoke op kw)) → (∀ kw, preserves I (construct kw)) →
  preserves I (_start_speaker v).
Proof.
  intros Hi Hc. destruct v as [| | | | | |d]; try by intros st.
  intros st HI. rewrite start_speaker_dict. revert st HI.
  change (preserves I (log_debug "Starting BGPSpeaker..." [];;
                       construct (bgp_settings_of d);; load_lists d)).
  apply preserves_bind; [done|]. intros _.
  apply preserves_bind; [done|]. intros _.
  by apply preserves_load_lists.
Qed.

Lemma preserves_configure (m : pymodule) :
  (m !! "BGP" = None ∨ ((∀ op kw, preserves I (invoke op kw))
                         ∧ ∀ kw, preserves I (construct kw))) →
  (∀ v, m !! "SSH" = Some v → preserves I (start_ssh v)) →
  preserves I (configure m).
Proof.
  intros Hb Hs. unfold configure.
  apply preserves_bind.
  { destruct (bool_decide _); [done|apply preserves_ret]. }
  intros _. apply preserves_bind.
  - destruct (m !! "BGP") as [bgp|]; [|apply preserves_ret].
    destruct Hb as [|[Hi Hc]]; [done|].
    apply preserves_bind; [done|]. intros _. by apply preserves_start_speaker.
  - intros _. destruct (m !! "SSH") as [ssh|]; [|apply preserves_ret].
    apply preserves_bind; [done|]. intros _. by apply Hs.
Qed.
End WholeRun.

Section Shell.
Context `{BgpBase, RtConf, Validation, Host, Engine}.

(** [start_ssh], by the import and the section. *)
Lemma start_ssh_run (v : pyval) (st : state) :
  start_ssh v st
  = match import_ssh with
    | Some e =>
        (inl e, State (self_config_file st) (self_speaker st)
                  (trace st ++ [ImportSsh (Some e)]))
    | None =>
        match py_kwargs v with
        | inl e =>
            (inl e, State (self_config_file st) (self_speaker st)
                      (trace st ++ [ImportSsh None]))
        | inr kw =>
            (inr tt,
             State (self_config_file st) (self_speaker st)
               (trace st ++ [ImportSsh None; Spawn SSH_CLI_CONTROLLER_start kw]))
        end
    end.
Proof.
  unfold start_ssh. destruct import_ssh as [e|]; run; [done|].
  destruct v; try done. by rewrite <- (assoc_L (++)).
Qed.

Lemma appended_start_ssh (t0 : list event) (P : event → Prop) (v : pyval) :
  (∀ o, P (ImportSsh o)) → (∀ kw, (∃ d, v = VDict d) → import_ssh = None →
                              P (Spawn SSH_CLI_CONTROLLER_start kw)) →
  preserves (appended t0 P) (start_ssh v).
Proof.
  intros Hi Hs st (new & E & HP). rewrite start_ssh_run.
  destruct import_ssh as [e|]; [|destruct v as [| | | | | |d]]; cbn;
    try (exists (new ++ [ImportSsh None]); cbn; rewrite E;
         split; [by rewrite (assoc_L (++))|]; apply Forall_app; split; [done|];
         by constructor).
  - exists (new ++ [ImportSsh (Some e)]). cbn. rewrite E.
    split; [by rewrite (assoc_L (++))|]. apply Forall_app. split; [done|].
    by constructor.
  - exists (new ++ [ImportSsh None; Spawn SSH_CLI_CONTROLLER_start d]). cbn.
    rewrite E. split; [by rewrite (assoc_L (++))|]. apply Forall_app. split; [done|].
    constructor; [done|]. constructor; [|done]. apply Hs; eauto.
Qed.

Lemma speaker_fixed_emit (sp : option engine) (ev : event) :
  preserves (λ st, self_speaker st = sp) (emit ev).
Proof. by intros st. Qed.

Lemma speaker_fixed_start_ssh (sp : option engine) (v : pyval) :
  preserves (λ st, self_speaker st = sp) (start_ssh v).
Proof.
  intros st Hs. rewrite start_ssh_run.
  destruct import_ssh; [done|]. by destruct (py_kwargs v).
Qed.

Lemma appended_launch_control (t0 : list event) (P : event → Prop) (CONF : conf) :
  P (Spawn NET_CONTROLLER_start (rpc_settings CONF)) →
  preserves (appended t0 P) (launch_control CONF).
Proof.
  intros HP st (new & E & Hnew). rewrite launch_control_run.
  destruct (validate_rpc_host (rpc_host CONF)); [by exists new|].
  eexists (new ++ [_]). cbn. rewrite E. split; [by rewrite (assoc_L (++))|].
  apply Forall_app. split; [done|]. by constructor.
Qed.

Lemma speaker_fixed_launch_control (sp : option engine) (CONF : conf) :
  preserves (λ st, self_speaker st = sp) (launch_control CONF).
Proof.
  intros st Hs. rewrite launch_control_run.
  by destruct (validate_rpc_host (rpc_host CONF)).
Qed.
End Shell.

Section ShellFacts.
Context `{BgpBase, RtConf, Validation, Host, Engine}.

(** With an SSH section, [configure] either stops before the shell or
    ends with [start_ssh] on the section, after the debug record. *)
Lemma configure_ssh (m : pymodule) (ssh : pyval) (st : state) :
  m !! "SSH" = Some ssh →
  ∃ st1 before,
    trace st1 = trace st ++ before
    ∧ ((∃ e, configure m st = (inl e, st1))
       ∨ configure m st
         = start_ssh ssh
             (State (self_config_file st1) (self_speaker st1)
                (trace st1 ++ [LogDebug "Loading SSH settings..." []]))).
Proof.
  intros Hssh. unfold configure. rewrite Hssh.
  rewrite bind_run.
  assert (∃ st0 pre0,
            trace st0 = trace st ++ pre0
            ∧ (if bool_decide (is_Some (m !! "LOGGING"))
               then log_debug "Loading LOGGING settings... (NOT implemented yet)" []
               else mret tt) st = (inr tt, st0)) as (st0 & pre0 & E0 & ->).
  { destruct (bool_decide _); run.
    - eexists _, [_]. split; [|reflexivity]. done.
    - exists st, []. by rewrite app_nil_r. }
  rewrite bind_run.
  set (bgp_part := match m !! "BGP" with
                   | Some bgp =>
                       log_debug "Loading BGP settings..." [];; _start_speaker bgp
                   | None => mret tt
                   end).
  assert (∃ pre1, trace (bgp_part st0).2 = trace st0 ++ pre1) as (pre1 & E1).
  { unfold bgp_part.
    destruct (m !! "BGP") as [bgp|]; [|exists []; by rewrite app_nil_r].
    run.
    match goal with |- context [_start_speaker bgp ?st'] =>
      destruct (takes_start_speaker bgp st') as (new & E & _) end.
    destruct (_start_speaker bgp _) as [[e|[]] st']; cbn [snd trace] in *;
      eexists (_ :: new); rewrite E; by rewrite <- (assoc_L (++)). }
  destruct (bgp_part st0) as [[e|[]] st1]; cbn [snd] in E1.
  - exists st1, (pre0 ++ pre1). split; [by rewrite E1, E0, (assoc_L (++))|].
    left. eauto.
  - exists st1, (pre0 ++ pre1). split; [by rewrite E1, E0, (assoc_L (++))|].
    right. rewrite bind_run. reflexivity.
Qed.
End ShellFacts.

Section FurtherShell.
Context `{BgpBase, RtConf, Validation, Host, Engine}.


End FurtherShell.

Section EntryFacts.
Context `{BgpBase, RtConf, Validation, Host, Engine}.

Lemma add_neighbors_app (xs ys : list pyval) (st : state) :
  _add_neighbors (VList (xs ++ ys)) st
  = (_add_neighbors (VList xs);; _add_neighbors (VList ys)) st.
Proof. unfold _add_neighbors. rewrite for_in_list. apply for_each_app. Qed.

Lemma add_vrfs_app (xs ys : list pyval) (st : state) :
  _add_vrfs (VList (xs ++ ys)) st
  = (_add_vrfs (VList xs);; _add_vrfs (VList ys)) st.
Proof. unfold _add_vrfs. rewrite for_in_list. apply for_each_app. Qed.

Lemma has_speaker_add_neighbors (v : pyval) : preserves has_speaker (_add_neighbors v).
Proof.
  apply preserves_add_neighbors.
  - intros fmt args. apply has_speaker_emit.
  - intros e. apply has_speaker_emit.
  - apply has_speaker_invoke.
Qed.

Lemma has_speaker_add_vrfs (v : pyval) : preserves has_speaker (_add_vrfs v).
Proof.
  apply preserves_add_vrfs.
  - intros fmt args. apply has_speaker_emit.
  - intros e. apply has_speaker_emit.
  - apply has_speaker_invoke.
Qed.

(** The guarded call on an entry that is not a dictionary. *)
Lemma guarded_call_not_a_dict (op : engine_op) (x : pyval) (st : state) :
  (∀ d, x ≠ VDict d) → is_Some (self_speaker st) →
  guarded (m ← speaker_attr op; apply_method m x) st
  = (inl (TypeError ("argument after ** must be a mapping, not " +:+ py_type_name x)),
     st).
Proof.
  intros Hx [s Hs]. unfold guarded, try_except, speaker_attr, apply_method. run.
  rewrite Hs. destruct x as [| | | | | |d]; try done. by destruct (Hx d).
Qed.
End EntryFacts.

Section FurtherEntries.
Context `{BgpBase, RtConf, Validation, Host, Engine}.


End FurtherEntries.

Section Uniformity.
Context `{BgpBase, RtConf, Validation, Host, Engine}.

Lemma uniform_ret {A} (x : A) : uniform (mret x).
Proof. intros st. exists []. intros cf tr. by rewrite app_nil_r. Qed.

Lemma uniform_lift {A} (r : exn + A) : uniform (lift r).
Proof. intros st. exists []. intros cf tr. by rewrite app_nil_r. Qed.

Lemma uniform_emit (ev : event) : uniform (emit ev).
Proof. intros st. by exists [ev]. Qed.

Lemma uniform_bind {A B} (m : M A) (f : A → M B) :
  uniform m → (∀ x, uniform (f x)) → uniform (m ≫= f).
Proof.
  intros Hm Hf st. destruct (Hm st) as (new1 & E1).
  rewrite bind_run. destruct (m st) as [[e|x] st1] eqn:Hrun; cbn [fst snd] in *.
  - exists new1. intros cf tr. by rewrite bind_run, E1.
  - destruct (Hf x st1) as (new2 & E2). exists (new1 ++ new2). intros cf tr.
    by rewrite bind_run, E1, E2, (assoc_L (++)).
Qed.

Lemma uniform_try_except {A} (body : M A) (cls : string) (handler : exn → M A) :
  uniform body → (∀ e, uniform (handler e)) → uniform (try_except body cls handler).
Proof.
  intros Hm Hh st. destruct (Hm st) as (new1 & E1). unfold try_except.
  destruct (body st) as [[e|x] st1] eqn:Hrun; cbn [fst snd] in *.
  - destruct (isinstance e cls) eqn:He.
    + destruct (Hh e st1) as (new2 & E2). exists (new1 ++ new2). intros cf tr.
      by rewrite E1, He, E2, (assoc_L (++)).
    + exists new1. intros cf tr. by rewrite E1, He.
  - exists new1. intros cf tr. by rewrite E1.
Qed.

Lemma uniform_for_each (items : list pyval) (body : pyval → M unit) :
  (∀ x, uniform (body x)) → uniform (for_each items body).
Proof.
  intros Hb. induction items as [|x items IH]; cbn [for_each].
  - apply uniform_ret.
  - apply uniform_bind; auto.
Qed.

Lemma uniform_for_in (v : pyval) (body : pyval → M unit) :
  (∀ x, uniform (body x)) → uniform (for_in v body).
Proof.
  intros Hb. apply uniform_bind; [apply uniform_lift|].
  intros items. by apply uniform_for_each.
Qed.

Lemma uniform_speaker_attr (op : engine_op) : uniform (speaker_attr op).
Proof.
  intros st. exists []. intros cf tr. unfold speaker_attr. cbn [self_speaker].
  destruct (self_speaker st) eqn:Hs; cbn [fst snd]; by rewrite Hs, app_nil_r.
Qed.

Lemma uniform_invoke (op : engine_op) (kw : kwargs) : uniform (invoke op kw).
Proof.
  intros st. unfold invoke. cbn [self_speaker].
  destruct (self_speaker st) as [s|] eqn:Hs.
  - destruct (method op kw s) as [[e|] s']; by eexists [_].
  - exists []. intros cf tr. cbn [fst snd]. by rewrite Hs, app_nil_r.
Qed.

Lemma uniform_construct (kw : kwargs) : uniform (construct kw).
Proof.
  intros st. unfold construct. destruct (BGPSpeaker kw); by eexists [_].
Qed.

Lemma uniform_guarded_call (op : engine_op) (x : pyval) :
  uniform (guarded (m ← speaker_attr op; apply_method m x)).
Proof.
  apply uniform_try_except; [|intros e; apply uniform_emit].
  apply uniform_bind; [apply uniform_speaker_attr|]. intros m.
  apply uniform_bind; [apply uniform_lift|]. intros kw. apply uniform_invoke.
Qed.

Lemma uniform_add_neighbors (v : pyval) : uniform (_add_neighbors v).
Proof.
  apply uniform_for_in. intros x.
  apply uniform_bind; [apply uniform_emit|]. intros _. apply uniform_guarded_call.
Qed.

Lemma uniform_add_vrfs (v : pyval) : uniform (_add_vrfs v).
Proof.
  apply uniform_for_in. intros x.
  apply uniform_bind; [apply uniform_emit|]. intros _. apply uniform_guarded_call.
Qed.

Lemma uniform_add_routes (v : pyval) : uniform (_add_routes v).
Proof.
  apply uniform_for_in. intros x.
  apply uniform_bind; [apply uniform_lift|]. intros has_prefix.
  apply uniform_bind.
  - destruct has_prefix.
    + apply uniform_bind; [apply uniform_speaker_attr|]. intros m. apply uniform_ret.
    + apply uniform_bind; [apply uniform_lift|]. intros [|].
      * apply uniform_bind; [apply uniform_speaker_attr|]. intros m.
        apply uniform_ret.
      * apply uniform_ret.
  - intros [op|]; [|apply uniform_emit].
    apply uniform_bind; [apply uniform_emit|]. intros _.
    apply uniform_try_except; [|intros e; apply uniform_emit].
    apply uniform_bind; [apply uniform_lift|]. intros kw. apply uniform_invoke.
Qed.

Lemma uniform_start_speaker (v : pyval) : uniform (_start_speaker v).
Proof.
  destruct v as [| | | | | |d];
    try (intros st; exists []; intros cf tr; by rewrite app_nil_r).
  intros st.
  assert (uniform (log_debug "Starting BGPSpeaker..." [];;
                   construct (bgp_settings_of d);; load_lists d)) as Hu.
  { apply uniform_bind; [apply uniform_emit|]. intros _.
    apply uniform_bind; [apply uniform_construct|]. intros _.
    unfold load_lists.
    apply uniform_bind; [apply uniform_emit|]. intros _.
    apply uniform_bind; [apply uniform_add_neighbors|]. intros _.
    apply uniform_bind; [apply uniform_emit|]. intros _.
    apply uniform_bind; [apply uniform_add_vrfs|]. intros _.
    apply uniform_bind; [apply uniform_emit|]. intros _.
    apply uniform_add_routes. }
  destruct (Hu st) as (new & E). exists new. intros cf tr.
  by rewrite !start_speaker_dict.
Qed.

Lemma uniform_start_ssh (v : pyval) : uniform (start_ssh v).
Proof.
  intros st. rewrite start_ssh_run.
  destruct import_ssh as [e|] eqn:Hi;
    [|destruct (py_kwargs v) as [e|kw] eqn:Hkw];
    eexists; intros cf tr; rewrite start_ssh_run, Hi, ?Hkw; reflexivity.
Qed.

Lemma uniform_launch_control (CONF : conf) : uniform (launch_control CONF).
Proof.
  intros st. rewrite launch_control_run.
  destruct (validate_rpc_host (rpc_host CONF)) as [e|ip] eqn:Hv.
  - exists []. intros cf tr. by rewrite launch_control_run, Hv, app_nil_r.
  - eexists. intros cf tr. rewrite launch_control_run, Hv. reflexivity.
Qed.

Lemma uniform_after_logging (m : pymodule) : uniform (after_logging m).
Proof.
  unfold after_logging. apply uniform_bind.
  - destruct (m !! "BGP") as [bgp|]; [|apply uniform_ret].
    apply uniform_bind; [apply uniform_emit|]. intros _. apply uniform_start_speaker.
  - intros _. destruct (m !! "SSH") as [ssh|]; [|apply uniform_ret].
    apply uniform_bind; [apply uniform_emit|]. intros _. apply uniform_start_ssh.
Qed.

(** [start] on loaded settings, with the LOGGING record set apart. *)
Lemma start_loaded_split (CONF : conf) (st : state) (p : string) (m : pymodule) :
  self_config_file st = Some p → p ≠ "" → isfile p = true →
  load_source settings_module p = inr m →
  start CONF st
  = (after_logging m;; launch_control CONF)
      (State (self_config_file st) (self_speaker st)
         (trace st
          ++ [SuperStart; LogDebug "Loading config file %s..." [VStr p];
              LoadSource settings_module p None]
          ++ (if bool_decide (is_Some (m !! "LOGGING")) then
                [LogDebug "Loading LOGGING settings... (NOT implemented yet)" []]
              else []))).
Proof.
  intros Hp Hne Hf Hl. rewrite (start_loaded CONF st p m) by done.
  unfold configure, after_logging.
  destruct (bool_decide (is_Some (m !! "LOGGING"))); run;
    rewrite <- ?(assoc_L (++)), ?app_nil_r; reflexivity.
Qed.
End Uniformity.

Section FurtherLogging.
Context `{BgpBase, RtConf, Validation, Host, Engine}.

End FurtherLogging.

Section Tolerance.
Context `{BgpBase, RtConf, Validation, Host, Engine}.

Lemma for_each_tolerant (body : pyval → M unit)
    (attempt : kwargs → option (engine_op * kwargs)) :
  one_attempt body attempt → rejects_only →
  ∀ ds st, has_speaker st →
    (for_each (VDict <$> ds) body st).1 = inr tt
    ∧ has_speaker (for_each (VDict <$> ds) body st).2.
Proof.
  intros Hbody Htol ds. induction ds as [|d ds IH]; intros st Hst; [by split|].
  destruct Hst as [s Hs]. cbn [fmap list_fmap]. rewrite for_each_cons.
  destruct (Hbody d st s Hs) as (dbg & _ & Hrun).
  destruct (attempt d) as [[op kw]|]; rewrite Hrun.
  - pose proof (Htol op kw s) as He.
    destruct (method op kw s) as [[e|] s']; cbn [fst snd] in *.
    + rewrite (He e eq_refl). apply IH. by eexists.
    + apply IH. by eexists.
  - apply IH. by eexists.
Qed.
End Tolerance.

Section FurtherTolerance.
Context `{BgpBase, RtConf, Validation, Host, Engine}.

End FurtherTolerance.

Section FurtherEdges.
Context `{BgpBase, RtConf, Validation, Host, Engine}.


End FurtherEdges.

(** * The further properties at work *)

Section FurtherWitnesses.
#[local] Existing Instance Sample.base.
#[local] Existing Instance Sample.names.
#[local] Existing Instance Sample.addresses.
#[local] Existing Instance Site.files.
#[local] Existing Instance Site.lenient.










(** The second speaker raises nothing but [RuntimeConfigError]. *)
Lemma lenient_rejects_only : rejects_only.
Proof.
  intros op kw s e. destruct op; cbn; unfold Site.accept;
    destruct (kw !! "address") as [[]|]; cbn; intros [= <-]; reflexivity.
Qed.



End FurtherWitnesses.
